(** * Venafi Cloud connector: request / poll / retrieve / renew

    A shallow embedding of
    [vendor/github.com/Venafi/vcert/pkg/venafi/cloud/connector.go].

    Go strings and byte slices are Rocq strings (sequences of 8-bit
    characters); a nil byte slice is [None].  Go [int] and
    [time.Duration] values are integers in [Z]; an instant of the clock is
    a [Z] number of nanoseconds, so [Time.Add] is addition and
    [Time.After] is [>].  A Go function returning [(T, error)] returns a
    [Result T]; where a function can panic it returns an [Outcome T].

    Everything the connector calls but does not define in this file (the
    HTTP transport, the clock, [fmt.Sprintf], [strings.ToUpper], the JSON
    and response parsers, [getURL]) is a field of the class [Platform]:
    the development holds for every implementation of them. *)

From Stdlib Require Import String Ascii List ZArith Bool Lia DecimalString.
Import ListNotations.

Local Open Scope string_scope.
Local Open Scope list_scope.
Local Open Scope Z_scope.

Infix "+++" := String.append (at level 60, right associativity).

(** ** Constants of the file *)

Definition nl : string := String (ascii_of_nat 10) EmptyString.

Definition apiURL : string := "api.venafi.cloud/v1/".

Definition urlResourcePing : string := "ping".
Definition urlResourceZones : string := "zones".
Definition urlResourceZoneByTag : string := urlResourceZones +++ "/tag/%s".
Definition urlResourceCertificatePolicies : string := "certificatepolicies".
Definition urlResourcePoliciesByID : string :=
  urlResourceCertificatePolicies +++ "/%s".
Definition urlResourcePoliciesForZoneByID : string :=
  urlResourceCertificatePolicies +++ "?zoneId=%s".
Definition urlResourceCertificateRequests : string := "certificaterequests".
Definition urlResourceCertificateStatus : string :=
  urlResourceCertificateRequests +++ "/%s".
Definition urlResourceCertificateRetrieve : string :=
  urlResourceCertificateRequests +++ "/%s/certificate".
Definition urlResourceCertificateSearch : string := "certificatesearch".
Definition urlResourceManagedCertificates : string := "managedcertificates".
Definition urlResourceManagedCertificateById : string :=
  urlResourceManagedCertificates +++ "/%s".

Definition condorChainOptionRootFirst : string := "ROOT_FIRST".
Definition condorChainOptionRootLast : string := "EE_FIRST".

(** [net/http] status codes used by the file. *)
Definition http_StatusOK : Z := 200.
Definition http_StatusConflict : Z := 409.

(** [2 * time.Second], in nanoseconds. *)
Definition pollInterval : Z := 2 * 1000000000.

(** ** Errors and results *)

(** The error values the file builds: [fmt.Errorf] messages and the two
    typed errors of package [endpoint].  [errorForeign] stands for an error
    of any other dynamic type handed back by the transport or a parser. *)
Inductive error : Type :=
| errorString (msg : string)
| ErrCertificatePending (CertificateID Status : string)
| ErrRetrieveCertificateTimeout (CertificateID : string)
| errorForeign (typeName msg : string).

(** A Go result pair [(T, error)]: [Ok] when the error is nil. *)
Inductive Result (A : Type) : Type :=
| Ok (a : A)
| Err (e : error).
Arguments Ok {A} a.
Arguments Err {A} e.

(** How a call ends: it returns its result pair, or the run-time panics. *)
Inductive Outcome (A : Type) : Type :=
| Returns (r : Result A)
| Panics (msg : string).
Arguments Returns {A} r.
Arguments Panics {A} msg.

(** How one pass through the poll loop of [RetrieveCertificate] leaves it. *)
Inductive LoopExit : Type :=
| Break
| ReturnErr (e : error).

(** ** Wire and request records

    Structs declared in other files of the package are records holding the
    fields this file reads or writes. *)

Record certificateStatus : Type := {
  cs_Status : string;
  cs_ZoneId : string;
  cs_ManagedCertificateId : string
}.

Record managedCertificate : Type := {
  mc_Id : string;
  mc_CompanyId : string;
  mc_LatestCertificateRequestId : string;
  mc_CertificateName : string
}.

Record responseError : Type := {
  re_Code : Z;
  re_Message : string
}.

Record zone : Type := {
  z_ID : string;
  z_DefaultCertificateIdentityPolicy : string;
  z_DefaultCertificateUsePolicy : string
}.

(** The body of a POST to [certificaterequests]. *)
Record certificateRequest : Type := {
  cr_ZoneID : string;
  cr_CSR : string;
  cr_ExistingManagedCertificateId : string;
  cr_ReuseCSR : bool
}.

Record certificateRequestResponseData : Type := {
  crd_ID : string
}.

Record certificateRequestResponse : Type := {
  CertificateRequests : list certificateRequestResponseData
}.

Record Certificate : Type := {
  CertificateRequestId : string
}.

Record CertificateSearchResponse : Type := {
  Certificates : list Certificate
}.

Record Operand : Type := {
  op_Field : string;
  op_Operator : string;
  op_Value : string
}.

Record Expression : Type := {
  Operands : list Operand
}.

Record SearchRequest : Type := {
  sr_Expression : option Expression
}.

(** [certificate.Request]: the fields the connector uses.  [CsrOrigin] and
    [ChainOption] are integer enumerations. *)
Record Request : Type := {
  CsrOrigin : Z;
  CSR : string;
  PickupID : string;
  Thumbprint : string;
  Timeout : Z;
  ChainOption : Z;
  FetchPrivateKey : bool
}.

Definition set_PickupID (req : Request) (id : string) : Request :=
  {| CsrOrigin := CsrOrigin req; CSR := CSR req; PickupID := id;
     Thumbprint := Thumbprint req; Timeout := Timeout req;
     ChainOption := ChainOption req;
     FetchPrivateKey := FetchPrivateKey req |}.

Record RenewalRequest : Type := {
  rr_CertificateDN : string;
  rr_Thumbprint : string;
  rr_CertificateRequest : option Request
}.

(** The [data] argument of [Connector.request]. *)
Inductive Payload : Type :=
| PNil
| PCertificateRequest (r : certificateRequest)
| PSearchRequest (r : SearchRequest).

(** What [Connector.request] hands back. *)
Record Response : Type := {
  statusCode : Z;
  status : string;
  body : option string;
  err : option error
}.

(** Operands of [fmt.Sprintf] and [fmt.Errorf]. *)
Inductive Arg : Type :=
| ArgStr (s : string)
| ArgInt (n : Z)
| ArgBytes (b : option string)
| ArgStrs (l : list string)
| ArgErr (e : error)
| ArgStatus (s : certificateStatus).

(** What the connector does to the outside world, in order. *)
Inductive Event : Type :=
| EvRequest (method url : string) (data : Payload)
| EvSleep (d : Z).

(** ** Types of other packages *)

Class ForeignTypes : Type := {
  World : Type;
  company : Type;
  CertPool : Type;
  allowedKeyType : Type;
  PEMCollection : Type
}.

Section Records.
Context {FT : ForeignTypes}.

Record userDetails : Type := {
  Company : option company
}.

Record Connector : Type := {
  baseURL : string;
  apiKey : string;
  verbose : bool;
  user : option userDetails;
  trust : option CertPool;
  c_zone : string
}.

Record certificatePolicy : Type := {
  CertificatePolicyType : string;
  SubjectCNRegexes : list string;
  SubjectORegexes : list string;
  SubjectOURegexes : list string;
  SubjectSTRegexes : list string;
  SubjectLRegexes : list string;
  SubjectCRegexes : list string;
  SANRegexes : list string;
  KeyTypes : list allowedKeyType;
  KeyReuse : bool
}.

(** [new(certificatePolicy)]: every field at its zero value. *)
Definition new_certificatePolicy : certificatePolicy :=
  {| CertificatePolicyType := ""; SubjectCNRegexes := [];
     SubjectORegexes := []; SubjectOURegexes := []; SubjectSTRegexes := [];
     SubjectLRegexes := []; SubjectCRegexes := []; SANRegexes := [];
     KeyTypes := []; KeyReuse := false |}.

(** The state threaded through a run: the outside world and the trace of
    what the connector did to it. *)
Record State : Type := {
  world : World;
  log : list Event
}.

End Records.

(** ** The platform the connector runs on *)

Class Platform {FT : ForeignTypes} : Type := {
  (** [Connector.request(method, url, data, authNotRequired...)] *)
  request : Connector -> string -> string -> Payload -> list bool ->
            World -> Response * World;
  (** [time.Now()] *)
  now : World -> Z * World;
  (** [time.Sleep(d)] *)
  sleep : Z -> World -> World;
  (** [fmt.Sprintf(format, args...)] *)
  Sprintf : string -> list Arg -> string;
  (** [strings.ToUpper] *)
  ToUpper : string -> string;
  (** [Connector.getURL] *)
  getURL : Connector -> string -> string;
  (** [json.Unmarshal] into a fresh struct of the given type *)
  json_Unmarshal_certificateStatus : option string -> Result certificateStatus;
  json_Unmarshal_managedCertificate : option string -> Result managedCertificate;
  (** the response parsers of the package *)
  parseResponseErrors : option string -> Result (list responseError);
  parseCertificateRequestResult :
    Z -> string -> option string -> Result certificateRequestResponse;
  parseZoneConfigurationResult : Z -> string -> option string -> Result zone;
  parseCertificatePolicyResult :
    Z -> string -> option string -> Result certificatePolicy;
  ParseCertificateSearchResponse :
    Z -> option string -> Result CertificateSearchResponse;
  newPEMCollectionFromResponse : option string -> Z -> Result PEMCollection;
  (** constants of other files and packages *)
  MATCH : string;
  certificatePolicyTypeIdentity : string;
  certificatePolicyTypeUse : string;
  ServiceGeneratedCSR : Z;
  ChainOptionRootFirst : Z;
  (** the two [case] constants of one [switch] are different *)
  certificatePolicyTypes_differ :
    certificatePolicyTypeIdentity <> certificatePolicyTypeUse
}.

(** ** A state monad for the connector's effects *)

Section Monad.
Context {FT : ForeignTypes}.

Definition M (A : Type) : Type := State -> A * State.

Definition ret {A : Type} (a : A) : M A := fun st => (a, st).

Definition bind {A B : Type} (m : M A) (k : A -> M B) : M B :=
  fun st => let (a, st') := m st in k a st'.

End Monad.

Notation "x <- m ;; k" := (bind m (fun x => k))
  (at level 61, m at next level, right associativity).
Notation "m ;;; k" := (bind m (fun _ => k))
  (at level 61, right associativity).

(** ** [strings.Replace]

    [strings_Replace s old new n] replaces the first [n] non-overlapping
    occurrences of [old] in [s] by [new], all of them when [n < 0].  [old]
    is a non-empty string at both call sites; for an empty [old] (which Go
    treats rune by rune) the model leaves [s] as it is. *)

Fixpoint hasPrefix (s prefix : string) : bool :=
  match prefix, s with
  | EmptyString, _ => true
  | String _ _, EmptyString => false
  | String a prefix', String b s' => Ascii.eqb a b && hasPrefix s' prefix'
  end.

(** [skip] characters of a match still to drop; [budget] replacements
    left. *)
Fixpoint replaceFrom (old new : string) (budget skip : nat) (s : string)
  : string :=
  match s with
  | EmptyString => EmptyString
  | String ch rest =>
      match skip with
      | S k => replaceFrom old new budget k rest
      | O =>
          match budget with
          | O => s
          | S budget' =>
              if hasPrefix s old
              then new +++ replaceFrom old new budget'
                             (String.length old - 1) rest
              else String ch (replaceFrom old new budget O rest)
          end
      end
  end.

Definition strings_Replace (s old new : string) (n : Z) : string :=
  match old with
  | EmptyString => s
  | String _ _ =>
      let budget := if n <? 0 then S (String.length s) else Z.to_nat n in
      replaceFrom old new budget O s
  end.

(** ** The connector *)

Section Connector.
Context {FT : ForeignTypes} {P : Platform}.

Definition Errorf (format : string) (args : list Arg) : error :=
  errorString (Sprintf format args).

(** *** Effects *)

Definition c_request (c : Connector) (method url : string) (data : Payload)
    (authNotRequired : list bool) : M Response :=
  fun st =>
    let (r, w) := request c method url data authNotRequired (world st) in
    (r, {| world := w; log := log st ++ [EvRequest method url data] |}).

Definition time_Now : M Z :=
  fun st =>
    let (t, w) := now (world st) in
    (t, {| world := w; log := log st |}).

Definition time_Sleep (d : Z) : M unit :=
  fun st =>
    (tt, {| world := sleep d (world st); log := log st ++ [EvSleep d] |}).

(** *** [getCertificateStatus] *)

Definition getCertificateStatus (c : Connector) (requestID : string)
  : M (Result certificateStatus) :=
  let url := getURL c urlResourceCertificateStatus in
  let url := Sprintf url [ArgStr requestID] in
  r <- c_request c "GET" url PNil [] ;;
  if statusCode r =? http_StatusOK then
    match json_Unmarshal_certificateStatus (body r) with
    | Err e =>
        ret (Err (Errorf
          "failed to parse certificate request status response: %s"
          [ArgErr e]))
    | Ok certStatus => ret (Ok certStatus)
    end
  else
    match parseResponseErrors (body r) with
    | Ok respErrors =>
        let respError :=
          Sprintf ("Unexpected status code on Venafi Cloud certificate search. Status: %d" +++ nl)
                  [ArgInt (statusCode r)] in
        let respError :=
          fold_left
            (fun acc e =>
               acc +++ Sprintf ("Error Code: %d Error: %s" +++ nl)
                         [ArgInt (re_Code e); ArgStr (re_Message e)])
            respErrors respError in
        ret (Err (Errorf respError []))
    | Err _ =>
        ret (Err (Errorf
          "Unexpected status code on Venafi Cloud certificate search. Status: %d"
          [ArgInt (statusCode r)]))
    end.

(** *** [searchCertificates], [searchCertificatesByFingerprint] *)

Definition searchCertificates (c : Connector) (req : SearchRequest)
  : M (Result CertificateSearchResponse) :=
  let url := getURL c urlResourceCertificateSearch in
  r <- c_request c "POST" url (PSearchRequest req) [] ;;
  match ParseCertificateSearchResponse (statusCode r) (body r) with
  | Err e => ret (Err e)
  | Ok searchResult => ret (Ok searchResult)
  end.

Definition searchCertificatesByFingerprint (c : Connector) (fp : string)
  : M (Result CertificateSearchResponse) :=
  let fp := strings_Replace fp ":" "" (-1) in
  let fp := strings_Replace fp "." "" (-1) in
  let fp := ToUpper fp in
  let req :=
    {| sr_Expression :=
         Some {| Operands :=
                   [ {| op_Field := "fingerprint";
                        op_Operator := MATCH;
                        op_Value := fp |} ] |} |} in
  searchCertificates c req.

(** *** [getManagedCertificate] *)

Definition getManagedCertificate (c : Connector) (managedCertId : string)
  : M (Result managedCertificate) :=
  let url := getURL c urlResourceManagedCertificateById in
  let url := Sprintf url [ArgStr managedCertId] in
  r <- c_request c "GET" url PNil [] ;;
  match err r with
  | Some e => ret (Err e)
  | None =>
      if statusCode r =? http_StatusOK then
        match json_Unmarshal_managedCertificate (body r) with
        | Err e =>
            ret (Err (Errorf "Failed to parse search results: %s, body: %s"
                        [ArgErr e; ArgBytes (body r)]))
        | Ok res => ret (Ok res)
        end
      else
        let fallback :=
          Errorf "Unexpected status code on Venafi Cloud certificate search. Status: %d"
                 [ArgInt (statusCode r)] in
        match body r with
        | Some _ =>
            match parseResponseErrors (body r) with
            | Ok respErrors =>
                let respError :=
                  Sprintf ("Unexpected status code on Venafi Cloud certificate search. Status: %d" +++ nl)
                          [ArgInt (statusCode r)] in
                let respError :=
                  fold_left
                    (fun acc e =>
                       acc +++ Sprintf ("Error Code: %d Error: %s" +++ nl)
                                 [ArgInt (re_Code e); ArgStr (re_Message e)])
                    respErrors respError in
                ret (Err (Errorf respError []))
            | Err _ => ret (Err fallback)
            end
        | None => ret (Err fallback)
        end
  end.

(** *** [getZoneByTag] *)

Definition getZoneByTag (c : Connector) (tag : string) : M (Result zone) :=
  let url := getURL c urlResourceZoneByTag in
  match user c with
  | None =>
      ret (Err (Errorf "Must be autheticated to read the zone configuration" []))
  | Some _ =>
      let url := Sprintf url [ArgStr tag] in
      r <- c_request c "GET" url PNil [] ;;
      match err r with
      | Some e => ret (Err e)
      | None =>
          match parseZoneConfigurationResult (statusCode r) (status r) (body r) with
          | Err e => ret (Err e)
          | Ok z => ret (Ok z)
          end
      end
  end.

(** *** [getPoliciesByID] *)

(** The assignments of one pass of the [switch p.CertificatePolicyType]. *)
Definition mergePolicy (policy p : certificatePolicy) : certificatePolicy :=
  if String.eqb (CertificatePolicyType p) certificatePolicyTypeIdentity then
    {| CertificatePolicyType := CertificatePolicyType policy;
       SubjectCNRegexes := SubjectCNRegexes p;
       SubjectORegexes := SubjectORegexes p;
       SubjectOURegexes := SubjectOURegexes p;
       SubjectSTRegexes := SubjectSTRegexes p;
       SubjectLRegexes := SubjectLRegexes p;
       SubjectCRegexes := SubjectCRegexes p;
       SANRegexes := SANRegexes p;
       KeyTypes := KeyTypes policy;
       KeyReuse := KeyReuse policy |}
  else if String.eqb (CertificatePolicyType p) certificatePolicyTypeUse then
    {| CertificatePolicyType := CertificatePolicyType policy;
       SubjectCNRegexes := SubjectCNRegexes policy;
       SubjectORegexes := SubjectORegexes policy;
       SubjectOURegexes := SubjectOURegexes policy;
       SubjectSTRegexes := SubjectSTRegexes policy;
       SubjectLRegexes := SubjectLRegexes policy;
       SubjectCRegexes := SubjectCRegexes policy;
       SANRegexes := SANRegexes policy;
       KeyTypes := KeyTypes p;
       KeyReuse := KeyReuse p |}
  else policy.

(** The [for _, id := range ids] loop, from the policy built so far. *)
Fixpoint rangePolicyIDs (c : Connector) (ids : list string)
    (policy : certificatePolicy) : M (Result certificatePolicy) :=
  match ids with
  | [] => ret (Ok policy)
  | id :: ids' =>
      let url := getURL c urlResourcePoliciesByID in
      let url := Sprintf url [ArgStr id] in
      r <- c_request c "GET" url PNil [] ;;
      match parseCertificatePolicyResult (statusCode r) (status r) (body r) with
      | Err e => ret (Err e)
      | Ok p => rangePolicyIDs c ids' (mergePolicy policy p)
      end
  end.

Definition getPoliciesByID (c : Connector) (ids : list string)
  : M (Result certificatePolicy) :=
  let policy := new_certificatePolicy in
  match user c with
  | None =>
      ret (Err (Errorf "Must be autheticated to read the zone configuration" []))
  | Some _ => rangePolicyIDs c ids policy
  end.

(** *** The fingerprint loop

    The [for _, c := range searchResult.Certificates] loop that
    [RetrieveCertificate] and [RenewCertificate] both carry, from the
    values of [reqIds], [isOnlyOneCertificateRequestId] and
    [certificateRequestId] on entry to those on exit. *)
Fixpoint rangeCertificates (certs : list Certificate) (reqIds : list string)
    (isOnlyOneCertificateRequestId : bool) (certificateRequestId : string)
  : list string * bool * string :=
  match certs with
  | [] => (reqIds, isOnlyOneCertificateRequestId, certificateRequestId)
  | c :: certs' =>
      let reqIds := reqIds ++ [CertificateRequestId c] in
      let isOnlyOneCertificateRequestId :=
        if negb (String.eqb certificateRequestId "")
           && negb (String.eqb certificateRequestId (CertificateRequestId c))
        then false
        else isOnlyOneCertificateRequestId in
      rangeCertificates certs' reqIds isOnlyOneCertificateRequestId
        (CertificateRequestId c)
  end.

(** [c.user == nil || c.user.Company == nil] *)
Definition userOrCompanyNil (c : Connector) : bool :=
  match user c with
  | None => true
  | Some u => match Company u with None => true | Some _ => false end
  end.

(** *** [RequestCertificate] *)

Definition RequestCertificate (c : Connector) (req : Request) (zone : string)
  : M (Request * Outcome string) :=
  let zone := if String.eqb zone "" then c_zone c else zone in
  if CsrOrigin req =? ServiceGeneratedCSR then
    ret (req, Returns (Err (Errorf
      "service generated CSR is not supported by Saas service" [])))
  else
    let url := getURL c urlResourceCertificateRequests in
    if userOrCompanyNil c then
      ret (req, Returns (Err (Errorf
        "Must be autheticated to request a certificate" [])))
    else
      rz <- getZoneByTag c zone ;;
      match rz with
      | Err e => ret (req, Returns (Err e))
      | Ok z =>
          r <- c_request c "POST" url
                 (PCertificateRequest
                    {| cr_ZoneID := z_ID z; cr_CSR := CSR req;
                       cr_ExistingManagedCertificateId := "";
                       cr_ReuseCSR := false |}) [] ;;
          match err r with
          | Some e => ret (req, Returns (Err e))
          | None =>
              match parseCertificateRequestResult
                      (statusCode r) (status r) (body r) with
              | Err e => ret (req, Returns (Err e))
              | Ok cr =>
                  match CertificateRequests cr with
                  | [] =>
                      ret (req, Panics
                        "runtime error: index out of range [0] with length 0")
                  | d :: _ =>
                      let requestID := crd_ID d in
                      ret (set_PickupID req requestID, Returns (Ok requestID))
                  end
              end
          end
      end.

(** *** [RetrieveCertificate] *)

(** Lines 220-245: fill [req.PickupID] from a fingerprint search. *)
Definition resolvePickupID (c : Connector) (req : Request)
  : M (Result Request) :=
  if String.eqb (PickupID req) "" && negb (String.eqb (Thumbprint req) "")
  then
    sr <- searchCertificatesByFingerprint c (Thumbprint req) ;;
    match sr with
    | Err e =>
        ret (Err (Errorf "Failed to retrieve certificate: %s" [ArgErr e]))
    | Ok searchResult =>
        match Certificates searchResult with
        | [] =>
            ret (Err (Errorf "No certifiate found using fingerprint %s"
                        [ArgStr (Thumbprint req)]))
        | _ :: _ =>
            let '(reqIds, isOnlyOneCertificateRequestId, certificateRequestId) :=
              rangeCertificates (Certificates searchResult) [] true "" in
            if negb isOnlyOneCertificateRequestId then
              ret (Err (Errorf
                "More than one CertificateRequestId was found with the same Fingerprint: %s"
                [ArgStrs reqIds]))
            else ret (Ok (set_PickupID req certificateRequestId))
        end
    end
  else ret (Ok req).

(** Lines 248-267: the poll loop, run for at most [fuel] passes; [None]
    when the loop is still running after them. *)
Fixpoint pollStatus (fuel : nat) (c : Connector) (req : Request)
    (startTime : Z) : M (option LoopExit) :=
  match fuel with
  | O => ret None
  | S fuel' =>
      rs <- getCertificateStatus c (PickupID req) ;;
      match rs with
      | Err e =>
          ret (Some (ReturnErr (Errorf "unable to retrieve: %s" [ArgErr e])))
      | Ok status =>
          if String.eqb (cs_Status status) "ISSUED" then ret (Some Break)
          else if String.eqb (cs_Status status) "FAILED" then
            ret (Some (ReturnErr (Errorf
              "Failed to retrieve certificate. Status: %v" [ArgStatus status])))
          else if Timeout req =? 0 then
            ret (Some (ReturnErr
              (ErrCertificatePending (PickupID req) (cs_Status status))))
          else
            t <- time_Now ;;
            if t >? startTime + Timeout req then
              ret (Some (ReturnErr
                (ErrRetrieveCertificateTimeout (PickupID req))))
            else
              time_Sleep pollInterval ;;;
              pollStatus fuel' c req startTime
      end
  end.

(** Lines 269-291: fetch the certificate itself. *)
Definition fetchCertificate (c : Connector) (req : Request)
  : M (Result PEMCollection) :=
  let url := getURL c urlResourceCertificateRetrieve in
  if userOrCompanyNil c then
    ret (Err (Errorf "Must be autheticated to retieve certificate" []))
  else
    let url := Sprintf url [ArgStr (PickupID req)] in
    let url := url +++ "?chainOrder=%s&format=PEM" in
    let url :=
      if ChainOption req =? ChainOptionRootFirst
      then Sprintf url [ArgStr condorChainOptionRootFirst]
      else Sprintf url [ArgStr condorChainOptionRootLast] in
    r <- c_request c "GET" url PNil [] ;;
    match err r with
    | Some e => ret (Err e)
    | None =>
        if statusCode r =? http_StatusOK then
          ret (newPEMCollectionFromResponse (body r) (ChainOption req))
        else if statusCode r =? http_StatusConflict then
          ret (Err (ErrCertificatePending (PickupID req) ""))
        else
          ret (Err (Errorf
            "Failed to retrieve certificate. StatusCode: %d -- Status: %s -- Server Data: %s"
            [ArgInt (statusCode r); ArgStr (status r); ArgBytes (body r)]))
    end.

(** Lines 247-291: the poll loop and what follows it. *)
Definition pollAndFetch (fuel : nat) (c : Connector) (req : Request)
    (startTime : Z) : M (option (Result PEMCollection)) :=
  x <- pollStatus fuel c req startTime ;;
  match x with
  | None => ret None
  | Some (ReturnErr e) => ret (Some (Err e))
  | Some Break => r <- fetchCertificate c req ;; ret (Some r)
  end.

(** The whole function.  It returns the request as it leaves it (the
    function writes [req.PickupID]) and the result pair, [None] while the
    poll loop has not ended within [fuel] passes. *)
Definition RetrieveCertificate (fuel : nat) (c : Connector) (req : Request)
  : M (Request * option (Result PEMCollection)) :=
  if FetchPrivateKey req then
    ret (req, Some (Err (Errorf
      "Failed to retrieve private key from Venafi Cloud service: not supported"
      [])))
  else
    rp <- resolvePickupID c req ;;
    match rp with
    | Err e => ret (req, Some (Err e))
    | Ok req =>
        startTime <- time_Now ;;
        r <- pollAndFetch fuel c req startTime ;;
        ret (req, r)
    end.

(** *** [RenewCertificate] *)

(** The 1st step: the [certificateRequestId] to renew. *)
Definition renewalRequestId (c : Connector) (renewReq : RenewalRequest)
  : M (Result string) :=
  if negb (String.eqb (rr_Thumbprint renewReq) "") then
    sr <- searchCertificatesByFingerprint c (rr_Thumbprint renewReq) ;;
    match sr with
    | Err e =>
        ret (Err (Errorf "Failed to create renewal request: %s" [ArgErr e]))
    | Ok searchResult =>
        match Certificates searchResult with
        | [] =>
            ret (Err (Errorf "No certifiate found using fingerprint %s"
                        [ArgStr (rr_Thumbprint renewReq)]))
        | _ :: _ =>
            let '(reqIds, isOnlyOneCertificateRequestId, certificateRequestId) :=
              rangeCertificates (Certificates searchResult) [] true "" in
            if negb isOnlyOneCertificateRequestId then
              ret (Err (Errorf
                "Error: more than one CertificateRequestId was found with the same Fingerprint: %s"
                [ArgStrs reqIds]))
            else ret (Ok certificateRequestId)
        end
    end
  else if negb (String.eqb (rr_CertificateDN renewReq) "") then
    ret (Ok (rr_CertificateDN renewReq))
  else
    ret (Err (Errorf
      "failed to create renewal request: CertificateDN or Thumbprint required"
      [])).

(** The format of the error of the 3rd step. *)
Definition staleRenewalFormat (renewReq : RenewalRequest) : string :=
  let withThumbprint :=
    if negb (String.eqb (rr_Thumbprint renewReq) "")
    then Sprintf "with thumbprint %s " [ArgStr (rr_Thumbprint renewReq)]
    else "" in
  "Certificate under requestId %s " +++ withThumbprint +++
  "is not the latest under ManagedCertificateId %s. The latest request is %s. " +++
  "This error may happen when revoked certificate is requested to be renewed.".

(** The 4th step: send the renewal request. *)
Definition submitRenewal (c : Connector) (renewReq : RenewalRequest)
    (zoneId managedCertificateId : string) : M (Outcome string) :=
  let url := getURL c urlResourceCertificateRequests in
  if userOrCompanyNil c then
    ret (Returns (Err (Errorf
      "Must be autheticated to request a certificate" [])))
  else
    let req :=
      match rr_CertificateRequest renewReq with
      | Some cr =>
          if (0 <? Z.of_nat (String.length (CSR cr))) then
            {| cr_ZoneID := zoneId; cr_CSR := CSR cr;
               cr_ExistingManagedCertificateId := managedCertificateId;
               cr_ReuseCSR := false |}
          else
            {| cr_ZoneID := zoneId; cr_CSR := "";
               cr_ExistingManagedCertificateId := managedCertificateId;
               cr_ReuseCSR := true |}
      | None =>
          {| cr_ZoneID := zoneId; cr_CSR := "";
             cr_ExistingManagedCertificateId := managedCertificateId;
             cr_ReuseCSR := true |}
      end in
    r <- c_request c "POST" url (PCertificateRequest req) [] ;;
    match err r with
    | Some e => ret (Returns (Err e))
    | None =>
        match parseCertificateRequestResult
                (statusCode r) (status r) (body r) with
        | Err e =>
            ret (Returns (Err (Errorf "Failed to renew certificate: %s"
                                 [ArgErr e])))
        | Ok cr =>
            match CertificateRequests cr with
            | [] =>
                ret (Panics
                  "runtime error: index out of range [0] with length 0")
            | d :: _ => ret (Returns (Ok (crd_ID d)))
            end
        end
    end.

Definition RenewCertificate (c : Connector) (renewReq : RenewalRequest)
  : M (Outcome string) :=
  (* 1st step *)
  r1 <- renewalRequestId c renewReq ;;
  match r1 with
  | Err e => ret (Returns (Err e))
  | Ok certificateRequestId =>
      (* 2nd step *)
      r2 <- getCertificateStatus c certificateRequestId ;;
      match r2 with
      | Err e =>
          ret (Returns (Err (Errorf "certificate renew failed: %s" [ArgErr e])))
      | Ok previousRequest =>
          let zoneId := cs_ZoneId previousRequest in
          let managedCertificateId := cs_ManagedCertificateId previousRequest in
          if String.eqb managedCertificateId "" then
            ret (Returns (Err (Errorf
              "failed to submit renewal request for certificate: ManagedCertificateId is empty, certificate status is %s"
              [ArgStr (cs_Status previousRequest)])))
          else if String.eqb zoneId "" then
            ret (Returns (Err (Errorf
              "failed to submit renewal request for certificate: ZoneId is empty, certificate status is %s"
              [ArgStr (cs_Status previousRequest)])))
          else
            (* 3rd step *)
            r3 <- getManagedCertificate c managedCertificateId ;;
            match r3 with
            | Err e =>
                ret (Returns (Err (Errorf "failed to renew certificate: %s"
                                     [ArgErr e])))
            | Ok managedCertificate =>
                if negb (String.eqb
                           (mc_LatestCertificateRequestId managedCertificate)
                           certificateRequestId)
                then
                  ret (Returns (Err (Errorf (staleRenewalFormat renewReq)
                    [ArgStr certificateRequestId;
                     ArgStr managedCertificateId;
                     ArgStr (mc_LatestCertificateRequestId
                               managedCertificate)])))
                else
                  (* 4th step *)
                  submitRenewal c renewReq zoneId managedCertificateId
            end
      end
  end.

End Connector.

(** ** Vocabulary of the specification *)

(** Delete every colon and every dot, in one pass. *)
Fixpoint stripSeparators (s : string) : string :=
  match s with
  | EmptyString => EmptyString
  | String ch rest =>
      if Ascii.eqb ch ":" || Ascii.eqb ch "."
      then stripSeparators rest
      else String ch (stripSeparators rest)
  end.

(** A POST of a new certificate request. *)
Definition isSubmission (e : Event) : bool :=
  match e with
  | EvRequest _ _ (PCertificateRequest _) => true
  | _ => false
  end.

Definition requestIds (certs : list Certificate) : list string :=
  map CertificateRequestId certs.


(** Delete every occurrence of one character. *)
Fixpoint removeChar (a : ascii) (s : string) : string :=
  match s with
  | EmptyString => EmptyString
  | String ch rest =>
      if Ascii.eqb a ch then removeChar a rest
      else String ch (removeChar a rest)
  end.

(** No pass of the fingerprint loop sees a current identifier that is
    neither empty nor the identifier of the next hit. *)
Fixpoint sameIdThroughout (current : string) (certs : list Certificate)
  : bool :=
  match certs with
  | [] => true
  | c :: certs' =>
      (String.eqb current "" || String.eqb current (CertificateRequestId c))
      && sameIdThroughout (CertificateRequestId c) certs'
  end.

Section Specification.
Context {FT : ForeignTypes} {P : Platform}.

Definition statusURL (c : Connector) (requestID : string) : string :=
  Sprintf (getURL c urlResourceCertificateStatus) [ArgStr requestID].

Definition managedCertificateURL (c : Connector) (id : string) : string :=
  Sprintf (getURL c urlResourceManagedCertificateById) [ArgStr id].

Definition zoneByTagURL (c : Connector) (tag : string) : string :=
  Sprintf (getURL c urlResourceZoneByTag) [ArgStr tag].

Definition policyURL (c : Connector) (id : string) : string :=
  Sprintf (getURL c urlResourcePoliciesByID) [ArgStr id].

(** The search request for a fingerprint already in normal form. *)
Definition fingerprintSearch (normalized : string) : SearchRequest :=
  {| sr_Expression :=
       Some {| Operands :=
                 [ {| op_Field := "fingerprint";
                      op_Operator := MATCH;
                      op_Value := normalized |} ] |} |}.

(** The errors with which the poll loop of [RetrieveCertificate] ends. *)
Definition pollLoopError (req : Request) (e : error) : Prop :=
  (exists e', e = Errorf "unable to retrieve: %s" [ArgErr e']) \/
  (exists s, e = Errorf "Failed to retrieve certificate. Status: %v"
                   [ArgStatus s]) \/
  (exists s, e = ErrCertificatePending (PickupID req) s) \/
  e = ErrRetrieveCertificateTimeout (PickupID req).

(** Two worlds the connector cannot tell apart: they answer the transport,
    the clock and the sleep alike, and stay so afterwards. *)
Record Indistinguishable (R : World -> World -> Prop) : Prop := {
  same_request :
    forall c method url data auth w1 w2, R w1 w2 ->
      fst (request c method url data auth w1)
        = fst (request c method url data auth w2) /\
      R (snd (request c method url data auth w1))
        (snd (request c method url data auth w2));
  same_now :
    forall w1 w2, R w1 w2 ->
      fst (now w1) = fst (now w2) /\ R (snd (now w1)) (snd (now w2));
  same_sleep :
    forall d w1 w2, R w1 w2 -> R (sleep d w1) (sleep d w2)
}.

(** *** The policy merge, in the words of the specification *)

(** Fetch the fragments one after the other, up to the first that fails. *)
Fixpoint fetchPolicyFragments (c : Connector) (ids : list string)
  : M (list certificatePolicy * option error) :=
  match ids with
  | [] => ret ([], None)
  | id :: ids' =>
      r <- c_request c "GET" (policyURL c id) PNil [] ;;
      match parseCertificatePolicyResult (statusCode r) (status r) (body r) with
      | Err e => ret ([], Some e)
      | Ok p =>
          x <- fetchPolicyFragments c ids' ;;
          ret (p :: fst x, snd x)
      end
  end.

(** The last fragment of the given type, if there is one. *)
Fixpoint lastOfType (ty : string) (ps : list certificatePolicy)
  : option certificatePolicy :=
  match ps with
  | [] => None
  | p :: ps' =>
      match lastOfType ty ps' with
      | Some q => Some q
      | None =>
          if String.eqb (CertificatePolicyType p) ty then Some p else None
      end
  end.

Definition fromFragment {A : Type} (o : option certificatePolicy)
    (field : certificatePolicy -> A) (empty : A) : A :=
  match o with
  | Some p => field p
  | None => empty
  end.

(** Subject and SAN sets from the identity fragment, key constraints from
    the use fragment, every other fragment ignored, the rest empty. *)
Definition mergedPolicy (ps : list certificatePolicy) : certificatePolicy :=
  let identity := lastOfType certificatePolicyTypeIdentity ps in
  let use := lastOfType certificatePolicyTypeUse ps in
  {| CertificatePolicyType := "";
     SubjectCNRegexes := fromFragment identity SubjectCNRegexes [];
     SubjectORegexes := fromFragment identity SubjectORegexes [];
     SubjectOURegexes := fromFragment identity SubjectOURegexes [];
     SubjectSTRegexes := fromFragment identity SubjectSTRegexes [];
     SubjectLRegexes := fromFragment identity SubjectLRegexes [];
     SubjectCRegexes := fromFragment identity SubjectCRegexes [];
     SANRegexes := fromFragment identity SANRegexes [];
     KeyTypes := fromFragment use KeyTypes [];
     KeyReuse := fromFragment use KeyReuse false |}.

(** The policy built so far, overridden by the fragments [ps]. *)
Definition overridden (policy : certificatePolicy)
    (ps : list certificatePolicy) : certificatePolicy :=
  let identity := lastOfType certificatePolicyTypeIdentity ps in
  let use := lastOfType certificatePolicyTypeUse ps in
  {| CertificatePolicyType := CertificatePolicyType policy;
     SubjectCNRegexes :=
       fromFragment identity SubjectCNRegexes (SubjectCNRegexes policy);
     SubjectORegexes :=
       fromFragment identity SubjectORegexes (SubjectORegexes policy);
     SubjectOURegexes :=
       fromFragment identity SubjectOURegexes (SubjectOURegexes policy);
     SubjectSTRegexes :=
       fromFragment identity SubjectSTRegexes (SubjectSTRegexes policy);
     SubjectLRegexes :=
       fromFragment identity SubjectLRegexes (SubjectLRegexes policy);
     SubjectCRegexes :=
       fromFragment identity SubjectCRegexes (SubjectCRegexes policy);
     SANRegexes := fromFragment identity SANRegexes (SANRegexes policy);
     KeyTypes := fromFragment use KeyTypes (KeyTypes policy);
     KeyReuse := fromFragment use KeyReuse (KeyReuse policy) |}.


(** The request [RequestCertificate] posts for a zone. *)
Definition submission (req : Request) (z : zone) : Payload :=
  PCertificateRequest
    {| cr_ZoneID := z_ID z; cr_CSR := CSR req;
       cr_ExistingManagedCertificateId := ""; cr_ReuseCSR := false |}.

(** The request [RenewCertificate] posts in its 4th step. *)
Definition renewal (renewReq : RenewalRequest)
    (zoneId managedCertificateId : string) : Payload :=
  PCertificateRequest
    match rr_CertificateRequest renewReq with
    | Some cr =>
        if 0 <? Z.of_nat (String.length (CSR cr)) then
          {| cr_ZoneID := zoneId; cr_CSR := CSR cr;
             cr_ExistingManagedCertificateId := managedCertificateId;
             cr_ReuseCSR := false |}
        else
          {| cr_ZoneID := zoneId; cr_CSR := "";
             cr_ExistingManagedCertificateId := managedCertificateId;
             cr_ReuseCSR := true |}
    | None =>
        {| cr_ZoneID := zoneId; cr_CSR := "";
           cr_ExistingManagedCertificateId := managedCertificateId;
           cr_ReuseCSR := true |}
    end.

(** Two states with the same trace whose worlds are related by [R]. *)
Definition related (R : World -> World -> Prop) (st1 st2 : State) : Prop :=
  R (world st1) (world st2) /\ log st1 = log st2.

(** A computation that gives the same value from related states and ends
    in related states. *)
Definition respects {A : Type} (R : World -> World -> Prop) (m : M A)
  : Prop :=
  forall st1 st2,
    related R st1 st2 ->
    fst (m st1) = fst (m st2) /\ related R (snd (m st1)) (snd (m st2)).

End Specification.

(** ** A scripted platform

    A stand-in for the service, on which the connector runs to a value: the
    transport answers every request with the next reply of a script and
    takes [latency] nanoseconds, the clock advances with the transport and
    the sleeps, and response bodies are fields separated by [|] or [,].
    [cancelRequested] is a cancellation signal raised by the host. *)

Module Scripted.

Record ScriptedWorld : Type := {
  clock : Z;
  latency : Z;
  replies : list Response;
  cancelRequested : bool
}.

Definition advance (d : Z) (w : ScriptedWorld) : ScriptedWorld :=
  {| clock := clock w + d; latency := latency w; replies := replies w;
     cancelRequested := cancelRequested w |}.

#[local] Instance types : ForeignTypes :=
  {| World := ScriptedWorld; company := unit; CertPool := unit;
     allowedKeyType := string; PEMCollection := list string |}.

Definition connectionRefused : Response :=
  {| statusCode := 0; status := ""; body := None;
     err := Some (errorForeign "*url.Error" "connection refused") |}.

Definition reply (code : Z) (text : string) (b : option string) : Response :=
  {| statusCode := code; status := text; body := b; err := None |}.

Definition transport (w : ScriptedWorld) : Response * ScriptedWorld :=
  match replies w with
  | [] => (connectionRefused, advance (latency w) w)
  | r :: rs =>
      (r, {| clock := clock w + latency w; latency := latency w;
             replies := rs; cancelRequested := cancelRequested w |})
  end.

Fixpoint splitOn (sep : ascii) (s : string) : list string :=
  match s with
  | EmptyString => [EmptyString]
  | String ch rest =>
      let parts := splitOn sep rest in
      if Ascii.eqb ch sep then EmptyString :: parts
      else match parts with
           | p :: ps => String ch p :: ps
           | [] => [String ch EmptyString]
           end
  end.

Definition fields (sep : ascii) (b : option string) : list string :=
  match b with
  | None => []
  | Some s => splitOn sep s
  end.

Definition upper (ch : ascii) : ascii :=
  let n := nat_of_ascii ch in
  if (Nat.leb 97 n && Nat.leb n 122)%bool then ascii_of_nat (n - 32) else ch.

Fixpoint toUpper (s : string) : string :=
  match s with
  | EmptyString => EmptyString
  | String ch rest => String (upper ch) (toUpper rest)
  end.

Definition errorText (e : error) : string :=
  match e with
  | errorString msg => msg
  | ErrCertificatePending id st =>
      "Issuance is pending. You may try retrieving the certificate later using Pickup ID: " +++ id
  | ErrRetrieveCertificateTimeout id =>
      "Operation timed out. You may try retrieving the certificate later using Pickup ID: " +++ id
  | errorForeign _ msg => msg
  end.

Definition showArg (a : Arg) : string :=
  match a with
  | ArgStr s => s
  | ArgInt n => NilZero.string_of_int (Z.to_int n)
  | ArgBytes None => ""
  | ArgBytes (Some b) => b
  | ArgStrs l => "[" +++ String.concat " " l +++ "]"
  | ArgErr e => errorText e
  | ArgStatus s =>
      "&{" +++ cs_Status s +++ " " +++ cs_ZoneId s +++ " " +++
      cs_ManagedCertificateId s +++ "}"
  end.

Fixpoint sprintf (format : string) (args : list Arg) : string :=
  match format with
  | EmptyString => EmptyString
  | String "%" (String verb rest) =>
      match args with
      | a :: args' => showArg a +++ sprintf rest args'
      | [] => "%!" +++ String verb ("(MISSING)" +++ sprintf rest [])
      end
  | String ch rest => String ch (sprintf rest args)
  end.

Definition jsonError : error :=
  errorForeign "*json.SyntaxError" "unexpected end of JSON input".

Definition unmarshalStatus (b : option string) : Result certificateStatus :=
  match fields "|" b with
  | [st; z; m] =>
      Ok {| cs_Status := st; cs_ZoneId := z; cs_ManagedCertificateId := m |}
  | _ => Err jsonError
  end.

Definition unmarshalManaged (b : option string) : Result managedCertificate :=
  match fields "|" b with
  | [id; latest] =>
      Ok {| mc_Id := id; mc_CompanyId := "";
            mc_LatestCertificateRequestId := latest;
            mc_CertificateName := "" |}
  | _ => Err jsonError
  end.

Definition parseRequestResult (code : Z) (text : string) (b : option string)
  : Result certificateRequestResponse :=
  if code =? 201 then
    Ok {| CertificateRequests :=
            map (fun id => {| crd_ID := id |}) (fields "," b) |}
  else Err (errorString ("Unexpected status code on Venafi Cloud certificate request. Status: " +++ text)).

Definition parseZone (code : Z) (text : string) (b : option string)
  : Result zone :=
  if code =? 200 then
    match fields "|" b with
    | [id; pi; pu] =>
        Ok {| z_ID := id; z_DefaultCertificateIdentityPolicy := pi;
              z_DefaultCertificateUsePolicy := pu |}
    | _ => Err jsonError
    end
  else Err (errorString ("Unexpected status code on Venafi Cloud zone read. Status: " +++ text)).

Definition parsePolicy (code : Z) (text : string) (b : option string)
  : Result (@certificatePolicy types) :=
  if code =? 200 then
    match fields "|" b with
    | [ty; re; kt] =>
        Ok {| CertificatePolicyType := ty;
              SubjectCNRegexes := [re]; SubjectORegexes := [re];
              SubjectOURegexes := [re]; SubjectSTRegexes := [re];
              SubjectLRegexes := [re]; SubjectCRegexes := [re];
              SANRegexes := [re];
              KeyTypes := [kt : @allowedKeyType types]; KeyReuse := true |}
    | _ => Err jsonError
    end
  else Err (errorString ("Unexpected status code on Venafi Cloud policy read. Status: " +++ text)).

Definition parseSearch (code : Z) (b : option string)
  : Result CertificateSearchResponse :=
  if code =? 200 then
    Ok {| Certificates :=
            map (fun id => {| CertificateRequestId := id |}) (fields "," b) |}
  else Err (errorString "Unexpected status code on Venafi Cloud certificate search").

Definition pemCollection (b : option string) (chainOption : Z)
  : Result (@PEMCollection types) :=
  match b with
  | None => Err (errorString "failed to parse PEM")
  | Some s =>
      Ok (if chainOption =? 1 then rev (splitOn "|" s) else splitOn "|" s)
  end.

Definition policyTypes_differ : "CERTIFICATE_IDENTITY" <> "CERTIFICATE_USE" :=
  proj1 (String.eqb_neq "CERTIFICATE_IDENTITY" "CERTIFICATE_USE") eq_refl.

#[local] Instance platform : @Platform types :=
  @Build_Platform types
    (* request *) (fun _ _ _ _ _ w => transport w)
    (* now *) (fun w => (clock w, w))
    (* sleep *) advance
    (* Sprintf *) sprintf
    (* ToUpper *) toUpper
    (* getURL *) (fun c resource => baseURL c +++ resource)
    (* json.Unmarshal *) unmarshalStatus unmarshalManaged
    (* parseResponseErrors *) (fun _ => Ok [])
    (* the response parsers *) parseRequestResult parseZone parsePolicy
    parseSearch pemCollection
    (* MATCH *) "MATCH"
    (* certificatePolicyTypeIdentity *) "CERTIFICATE_IDENTITY"
    (* certificatePolicyTypeUse *) "CERTIFICATE_USE"
    (* ServiceGeneratedCSR *) 1
    (* ChainOptionRootFirst *) 1
    policyTypes_differ.

(** An authenticated connector with default zone [Default]. *)
Definition connector : @Connector types :=
  {| baseURL := "https://api.venafi.cloud/v1/"; apiKey := "key";
     verbose := false;
     user := Some {| Company := Some (tt : @company types) |};
     trust := None; c_zone := "Default" |}.

(** A connector that has not authenticated. *)
Definition anonymous : @Connector types :=
  {| baseURL := "https://api.venafi.cloud/v1/"; apiKey := "";
     verbose := false; user := None; trust := None; c_zone := "Default" |}.

Definition second : Z := 1000000000.

(** The state at the start of a run: time 0, one second per request. *)
Definition start (script : list Response) (cancel : bool) : @State types :=
  {| world := {| clock := 0; latency := second; replies := script;
                 cancelRequested := cancel |};
     log := [] |}.

Definition request0 : Request :=
  {| CsrOrigin := 0; CSR := "-----BEGIN CERTIFICATE REQUEST-----";
     PickupID := "R1"; Thumbprint := ""; Timeout := 0; ChainOption := 0;
     FetchPrivateKey := false |}.

Definition withTimeout (req : Request) (t : Z) : Request :=
  {| CsrOrigin := CsrOrigin req; CSR := CSR req; PickupID := PickupID req;
     Thumbprint := Thumbprint req; Timeout := t;
     ChainOption := ChainOption req;
     FetchPrivateKey := FetchPrivateKey req |}.

Definition byThumbprint (fp : string) : Request :=
  {| CsrOrigin := 0; CSR := ""; PickupID := ""; Thumbprint := fp;
     Timeout := 0; ChainOption := 0; FetchPrivateKey := false |}.

Definition renewByThumbprint (fp : string) : RenewalRequest :=
  {| rr_CertificateDN := ""; rr_Thumbprint := fp;
     rr_CertificateRequest := None |}.

Definition renewByDN (dn : string) : RenewalRequest :=
  {| rr_CertificateDN := dn; rr_Thumbprint := "";
     rr_CertificateRequest := None |}.

Definition pending : Response := reply 200 "200 OK" (Some "PENDING|Z1|M1").
Definition issued : Response := reply 200 "200 OK" (Some "ISSUED|Z1|M1").
Definition failed : Response := reply 200 "200 OK" (Some "FAILED|Z1|M1").

(** Two worlds that differ at most in the cancellation signal. *)
Definition sameButCancel (w1 w2 : ScriptedWorld) : Prop :=
  clock w1 = clock w2 /\ latency w1 = latency w2 /\ replies w1 = replies w2.

Definition pem : Response := reply 200 "200 OK" (Some "leaf|ca|root").

(** Issued at the third poll, then the certificate. *)
Definition issuedLater : list Response := [pending; pending; issued; pem].

(** A search with one hit of request [R1], the status of [R1] under managed
    certificate [M1], and [M1] with latest request [R2]. *)
Definition staleScript : list Response :=
  [reply 200 "200 OK" (Some "R1"); issued; reply 200 "200 OK" (Some "M1|R2");
   reply 201 "201 Created" (Some "R3")].


Definition serviceGenerated : Request :=
  {| CsrOrigin := 1; CSR := ""; PickupID := ""; Thumbprint := "";
     Timeout := 0; ChainOption := 0; FetchPrivateKey := false |}.


End Scripted.

(** * The rest of the connector *)

(** ** [Authenticate], [SetZone], [ReadZoneConfiguration],
    [ReadPolicyConfiguration]

    What these call outside this file ([parseUserDetailsResult],
    [zone.getZoneConfiguration]) and the types of package [endpoint] they
    return are fields of the class [Package]. *)

(** [net/http] status codes used by these functions. *)
Definition http_StatusCreated : Z := 201.
Definition http_StatusAccepted : Z := 202.

(** [endpoint.Authentication]: the field the connector reads. *)
Record Authentication : Type := {
  APIKey : string
}.

Class Package {FT : ForeignTypes} : Type := {
  ZoneConfiguration : Type;
  Policy : Type;
  (** [config.Policy] *)
  zc_Policy : ZoneConfiguration -> Policy;
  (** [parseUserDetailsResult(expectedStatusCode, httpStatusCode, httpStatus, body)] *)
  parseUserDetailsResult :
    Z -> Z -> string -> option string -> Result userDetails;
  (** [z.getZoneConfiguration(ud, policy)] *)
  getZoneConfiguration :
    zone -> option userDetails -> certificatePolicy -> ZoneConfiguration
}.

Section Accounts.
Context {FT : ForeignTypes} {P : Platform} {K : Package}.



(** [SetZone] *)
Definition SetZone (c : Connector) (z : string) : Connector :=
  {| baseURL := baseURL c; apiKey := apiKey c; verbose := verbose c;
     user := user c; trust := trust c; c_zone := z |}.


(** [ReadZoneConfiguration] *)
Definition ReadZoneConfiguration (c : Connector) (zone : string)
  : M (Result ZoneConfiguration) :=
  rz <- getZoneByTag c zone ;;
  match rz with
  | Err e => ret (Err e)
  | Ok z =>
      rp <- getPoliciesByID c
              [z_DefaultCertificateIdentityPolicy z;
               z_DefaultCertificateUsePolicy z] ;;
      match rp with
      | Err e => ret (Err e)
      | Ok p => ret (Ok (getZoneConfiguration z (user c) p))
      end
  end.

(** [ReadPolicyConfiguration] *)
Definition ReadPolicyConfiguration (c : Connector) (zone : string)
  : M (Result Policy) :=
  rc <- ReadZoneConfiguration c zone ;;
  match rc with
  | Err e => ret (Err e)
  | Ok config => ret (Ok (zc_Policy config))
  end.

End Accounts.

(** ** More vocabulary *)

Definition isSleep (e : Event) : bool :=
  match e with
  | EvSleep _ => true
  | _ => false
  end.

(** A certificate search. *)
Definition isSearch (e : Event) : bool :=
  match e with
  | EvRequest _ _ (PSearchRequest _) => true
  | _ => false
  end.

(** A GET without a body. *)
Definition isGet (e : Event) : bool :=
  match e with
  | EvRequest method _ PNil => String.eqb method "GET"
  | _ => false
  end.

(** [k] rounds of a poll followed by the sleep of the loop. *)
Fixpoint pollRounds (poll : Event) (k : nat) : list Event :=
  match k with
  | O => []
  | S k' => poll :: EvSleep pollInterval :: pollRounds poll k'
  end.

(** The renewal request with an empty [CertificateDN]. *)
Definition withoutDN (renewReq : RenewalRequest) : RenewalRequest :=
  {| rr_CertificateDN := ""; rr_Thumbprint := rr_Thumbprint renewReq;
     rr_CertificateRequest := rr_CertificateRequest renewReq |}.

Section MoreSpecification.
Context {FT : ForeignTypes} {P : Platform}.

(** A clock that does not run backwards.  [clockOf] is the time of a world:
    a request never lowers it, [time.Now] reads a time between that of the
    world before and after, and a sleep of [d] raises it by [d] at least.
    [Inv] is what the worlds in question have in common. *)
Record TickingClock (clockOf : World -> Z) (Inv : World -> Prop) : Prop := {
  tick_request :
    forall c method url data auth w, Inv w ->
      Inv (snd (request c method url data auth w)) /\
      clockOf w <= clockOf (snd (request c method url data auth w));
  tick_now :
    forall w, Inv w ->
      Inv (snd (now w)) /\
      clockOf w <= fst (now w) /\ fst (now w) <= clockOf (snd (now w));
  tick_sleep :
    forall d w, Inv w ->
      Inv (sleep d w) /\ clockOf w + d <= clockOf (sleep d w)
}.

(** The URL of the POST of a certificate request. *)
Definition submissionURL (c : Connector) : string :=
  getURL c urlResourceCertificateRequests.

(** The URL from which [RetrieveCertificate] fetches the certificate. *)
Definition certificateURL (c : Connector) (req : Request) : string :=
  Sprintf (Sprintf (getURL c urlResourceCertificateRetrieve)
                   [ArgStr (PickupID req)]
           +++ "?chainOrder=%s&format=PEM")
          [ArgStr (if ChainOption req =? ChainOptionRootFirst
                   then condorChainOptionRootFirst
                   else condorChainOptionRootLast)].

(** The search event of a fingerprint. *)
Definition searchEvent (c : Connector) (fp : string) : Event :=
  EvRequest "POST" (getURL c urlResourceCertificateSearch)
    (PSearchRequest (fingerprintSearch (ToUpper (stripSeparators fp)))).

(** The poll event of a request. *)
Definition pollEvent (c : Connector) (requestID : string) : Event :=
  EvRequest "GET" (statusURL c requestID) PNil.

(** The events a run has added to the trace of the state it started
    from. *)
Definition added (st st' : State) (evs : list Event) : Prop :=
  log st' = log st ++ evs.

End MoreSpecification.

(** ** More of the scripted platform *)

Module ScriptedAccounts.
Import Scripted.

(** User details are a body [user] (no company) or [user|company]. *)
Definition parseUser (expected code : Z) (text : string) (b : option string)
  : Result (@userDetails types) :=
  if code =? expected then
    match fields "|" b with
    | [_] => Ok {| Company := None |}
    | [_; _] => Ok {| Company := Some (tt : @company types) |}
    | _ => Err jsonError
    end
  else Err (errorString ("Unexpected status code on Venafi Cloud registration. Status: " +++ text)).

#[local] Instance package : @Package types :=
  @Build_Package types
    (* ZoneConfiguration *) (string * list string * list string)
    (* Policy *) (list string * list string)
    (* zc_Policy *) (fun config => (snd (fst config), snd config))
    parseUser
    (* getZoneConfiguration *)
    (fun z _ p => (z_ID z, SubjectCNRegexes p, KeyTypes p)).

Definition zoneReply : Response := reply 200 "200 OK" (Some "Z1|PI|PU").

Definition credentials : Authentication := {| APIKey := "new-key" |}.

(** Two hits of the same request. *)
Definition sameRequestTwice : list Certificate :=
  [ {| CertificateRequestId := "R1" |}; {| CertificateRequestId := "R1" |} ].

Definition renewWithCSR (dn csr : string) : RenewalRequest :=
  {| rr_CertificateDN := dn; rr_Thumbprint := "";
     rr_CertificateRequest :=
       Some {| CsrOrigin := 0; CSR := csr; PickupID := ""; Thumbprint := "";
               Timeout := 0; ChainOption := 0; FetchPrivateKey := false |} |}.

Definition renewBoth (dn fp : string) : RenewalRequest :=
  {| rr_CertificateDN := dn; rr_Thumbprint := fp;
     rr_CertificateRequest := None |}.

(** A status answered with 200 while the transport reports an error. *)
Definition issuedWithError : Response :=
  {| statusCode := 200; status := "200 OK"; body := Some "ISSUED|Z1|M1";
     err := Some (errorForeign "*url.Error" "connection reset") |}.

Definition identityPolicy : @certificatePolicy types :=
  {| CertificatePolicyType := "CERTIFICATE_IDENTITY";
     SubjectCNRegexes := [".*"]; SubjectORegexes := ["Venafi"];
     SubjectOURegexes := []; SubjectSTRegexes := []; SubjectLRegexes := [];
     SubjectCRegexes := ["US"]; SANRegexes := [".*"];
     KeyTypes := ["DSA" : @allowedKeyType types]; KeyReuse := false |}.

Definition usePolicy : @certificatePolicy types :=
  {| CertificatePolicyType := "CERTIFICATE_USE";
     SubjectCNRegexes := ["ignored"]; SubjectORegexes := [];
     SubjectOURegexes := []; SubjectSTRegexes := []; SubjectLRegexes := [];
     SubjectCRegexes := []; SANRegexes := [];
     KeyTypes := ["RSA" : @allowedKeyType types]; KeyReuse := true |}.

(** The worlds whose transport takes no negative time. *)
Definition steady (w : ScriptedWorld) : Prop := 0 <= latency w.

End ScriptedAccounts.

(** * Properties *)

Section Properties.
Context {FT : ForeignTypes} {P : Platform}.

(** ** What each call adds to the trace *)



Lemma c_request_log :
  forall c method url data auth st,
    log (snd (c_request c method url data auth st))
    = log st ++ [EvRequest method url data].
Proof.
  intros. unfold c_request.
  destruct (request c method url data auth (world st)); reflexivity.
Qed.

Lemma c_request_run :
  forall c method url data auth st,
    c_request c method url data auth st
    = (fst (request c method url data auth (world st)),
       {| world := snd (request c method url data auth (world st));
          log := log st ++ [EvRequest method url data] |}).
Proof.
  intros. unfold c_request.
  destruct (request c method url data auth (world st)); reflexivity.
Qed.

Lemma time_Now_log : forall st, log (snd (time_Now st)) = log st.
Proof.
  intro st. unfold time_Now. destruct (now (world st)); reflexivity.
Qed.

(** Unfold one bind whose first computation is known. *)
Lemma bind_run :
  forall (A B : Type) (m : M A) (k : A -> M B) st a st',
    m st = (a, st') -> bind m k st = k a st'.
Proof. intros A B m k st a st' H. unfold bind. now rewrite H. Qed.

Lemma bind_surj :
  forall (A B : Type) (m : M A) (k : A -> M B) st,
    bind m k st = k (fst (m st)) (snd (m st)).
Proof. intros. unfold bind. now destruct (m st). Qed.

Lemma getCertificateStatus_log :
  forall c requestID st,
    log (snd (getCertificateStatus c requestID st))
    = log st ++ [EvRequest "GET" (statusURL c requestID) PNil].
Proof.
  intros. unfold getCertificateStatus. rewrite bind_surj.
  rewrite <- (c_request_log c "GET" (statusURL c requestID) PNil [] st).
  fold (statusURL c requestID).
  destruct (statusCode _ =? http_StatusOK).
  - destruct (json_Unmarshal_certificateStatus _); reflexivity.
  - destruct (parseResponseErrors _); reflexivity.
Qed.

Lemma getCertificateStatus_log' :
  forall c requestID st r st',
    getCertificateStatus c requestID st = (r, st') ->
    log st' = log st ++ [EvRequest "GET" (statusURL c requestID) PNil].
Proof.
  intros c requestID st r st' H.
  rewrite <- getCertificateStatus_log. now rewrite H.
Qed.




(** One pass through the poll loop, and what follows it. *)
Lemma pollAndFetch_pass :
  forall fuel c req startTime st,
    pollAndFetch (S fuel) c req startTime st
    = let (rs, st1) := getCertificateStatus c (PickupID req) st in
      match rs with
      | Err e => (Some (Err (Errorf "unable to retrieve: %s" [ArgErr e])), st1)
      | Ok status =>
          if String.eqb (cs_Status status) "ISSUED" then
            let (r, st2) := fetchCertificate c req st1 in (Some r, st2)
          else if String.eqb (cs_Status status) "FAILED" then
            (Some (Err (Errorf "Failed to retrieve certificate. Status: %v"
                          [ArgStatus status])), st1)
          else if Timeout req =? 0 then
            (Some (Err (ErrCertificatePending (PickupID req)
                          (cs_Status status))), st1)
          else
            let (t, st2) := time_Now st1 in
            if t >? startTime + Timeout req then
              (Some (Err (ErrRetrieveCertificateTimeout (PickupID req))), st2)
            else
              pollAndFetch fuel c req startTime
                (snd (time_Sleep pollInterval st2))
      end.
Proof.
  intros. unfold pollAndFetch. simpl pollStatus. unfold bind, ret.
  destruct (getCertificateStatus c (PickupID req) st) as [[status|e] st1];
    [|reflexivity].
  destruct (String.eqb (cs_Status status) "ISSUED").
  { destruct (fetchCertificate c req st1); reflexivity. }
  destruct (String.eqb (cs_Status status) "FAILED"); [reflexivity|].
  destruct (Timeout req =? 0); [reflexivity|].
  destruct (time_Now st1) as [t st2].
  destruct (t >? startTime + Timeout req); reflexivity.
Qed.


(** With a pickup id and no private key asked for, [RetrieveCertificate]
    reads the clock and enters the poll loop. *)
Lemma RetrieveCertificate_polls :
  forall fuel c req st,
    FetchPrivateKey req = false ->
    PickupID req <> "" ->
    RetrieveCertificate fuel c req st
    = let (startTime, st1) := time_Now st in
      let (r, st2) := pollAndFetch fuel c req startTime st1 in
      ((req, r), st2).
Proof.
  intros fuel c req st Hkey Hid. unfold RetrieveCertificate, resolvePickupID.
  rewrite Hkey. apply String.eqb_neq in Hid. rewrite Hid. cbn [andb].
  unfold bind, ret. destruct (time_Now st) as [startTime st1].
  destruct (pollAndFetch fuel c req startTime st1); reflexivity.
Qed.

(** ** The poll loop *)


(** C2.  A pass of the poll loop that fetches the status FAILED ends the
    call at once with the error built from that status: the status request
    is all the pass has done, so there is no sleep, no further poll and no
    retrieval request, whatever the timeout and however many passes were
    still allowed. *)
Theorem C2_failed_poll :
  forall (fuel : nat) (c : Connector) (req : Request) (startTime : Z)
         (st st1 : State) (status : certificateStatus),
    getCertificateStatus c (PickupID req) st = (Ok status, st1) ->
    cs_Status status = "FAILED" ->
    pollAndFetch (S fuel) c req startTime st
    = (Some (Err (Errorf "Failed to retrieve certificate. Status: %v"
                    [ArgStatus status])), st1)
    /\ log st1 = log st ++ [EvRequest "GET" (statusURL c (PickupID req)) PNil].
Proof.
  intros fuel c req startTime st st1 status Hfetch Hstatus. split.
  - rewrite pollAndFetch_pass, Hfetch, Hstatus. reflexivity.
  - exact (getCertificateStatus_log' _ _ _ _ _ Hfetch).
Qed.

(** ** Fingerprints *)

Lemma hasPrefix_empty : forall s, hasPrefix s EmptyString = true.
Proof. destruct s; reflexivity. Qed.

Lemma replace_char_all :
  forall a s budget,
    (String.length s < budget)%nat ->
    replaceFrom (String a EmptyString) EmptyString budget O s = removeChar a s.
Proof.
  intros a s. induction s as [|ch rest IH]; intros budget Hlen.
  - reflexivity.
  - destruct budget as [|budget']; [inversion Hlen|].
    simpl in Hlen.
    cbn [replaceFrom hasPrefix removeChar String.length Nat.sub].
    rewrite hasPrefix_empty, andb_true_r.
    destruct (Ascii.eqb a ch).
    + cbn [String.append]. apply IH. lia.
    + f_equal. apply IH. lia.
Qed.

Lemma strings_Replace_char :
  forall a s,
    strings_Replace s (String a EmptyString) EmptyString (-1) = removeChar a s.
Proof.
  intros. unfold strings_Replace.
  change (-1 <? 0) with true. cbv iota.
  apply replace_char_all. apply Nat.lt_succ_diag_r.
Qed.

Lemma removeChar_twice :
  forall s, removeChar "." (removeChar ":" s) = stripSeparators s.
Proof.
  induction s as [|ch rest IH]; [reflexivity|].
  cbn [removeChar stripSeparators].
  rewrite (Ascii.eqb_sym ch ":"), (Ascii.eqb_sym ch ".").
  destruct (Ascii.eqb ":" ch) eqn:E1; cbn [orb].
  - exact IH.
  - cbn [removeChar].
    destruct (Ascii.eqb "." ch) eqn:E2; now rewrite IH.
Qed.

Lemma searchCertificatesByFingerprint_normal :
  forall c fp,
    searchCertificatesByFingerprint c fp
    = searchCertificates c (fingerprintSearch (ToUpper (stripSeparators fp))).
Proof.
  intros. unfold searchCertificatesByFingerprint, fingerprintSearch.
  now rewrite !strings_Replace_char, removeChar_twice.
Qed.

Lemma searchCertificates_log :
  forall c req st,
    log (snd (searchCertificates c req st))
    = log st ++ [EvRequest "POST" (getURL c urlResourceCertificateSearch)
                   (PSearchRequest req)].
Proof.
  intros. unfold searchCertificates. rewrite bind_surj.
  rewrite <- (c_request_log c "POST" _ (PSearchRequest req) [] st).
  destruct (ParseCertificateSearchResponse _ _); reflexivity.
Qed.

(** C5.  Two fingerprints that are equal once every colon and every dot is
    deleted and the rest upper-cased make [searchCertificatesByFingerprint]
    send the same search request, a match of the field [fingerprint]
    against that normal form; the two searches are the same computation, so
    from the same state they give the same hits and hence the same request
    id. *)
Theorem C5_fingerprint_normal_form :
  forall (c : Connector) (fp1 fp2 : string) (st : State),
    ToUpper (stripSeparators fp1) = ToUpper (stripSeparators fp2) ->
    searchCertificatesByFingerprint c fp1 st
    = searchCertificatesByFingerprint c fp2 st
    /\ log (snd (searchCertificatesByFingerprint c fp1 st))
       = log st ++ [EvRequest "POST" (getURL c urlResourceCertificateSearch)
                      (PSearchRequest
                         (fingerprintSearch (ToUpper (stripSeparators fp1))))]
    /\ log (snd (searchCertificatesByFingerprint c fp2 st))
       = log st ++ [EvRequest "POST" (getURL c urlResourceCertificateSearch)
                      (PSearchRequest
                         (fingerprintSearch (ToUpper (stripSeparators fp1))))].
Proof.
  intros c fp1 fp2 st Hnorm.
  rewrite !searchCertificatesByFingerprint_normal, <- Hnorm.
  repeat split; apply searchCertificates_log.
Qed.

(** *** The fingerprint loop *)

Lemma last_cons_default :
  forall (A : Type) (l : list A) (x d d' : A),
    last (x :: l) d = last (x :: l) d'.
Proof.
  induction l as [|y l IH]; intros x d d'; [reflexivity|].
  change (last (y :: l) d = last (y :: l) d'). apply IH.
Qed.

Lemma rangeCertificates_spec :
  forall certs reqIds flag current,
    rangeCertificates certs reqIds flag current
    = (reqIds ++ requestIds certs,
       flag && sameIdThroughout current certs,
       last (requestIds certs) current).
Proof.
  induction certs as [|c certs IH]; intros reqIds flag current.
  - simpl. now rewrite app_nil_r, andb_true_r.
  - cbn [rangeCertificates]. rewrite IH. cbn [requestIds map sameIdThroughout].
    rewrite <- app_assoc. cbn [app]. f_equal; [f_equal|].
    + destruct (String.eqb current ""),
               (String.eqb current (CertificateRequestId c)), flag;
        reflexivity.
    + fold (requestIds certs).
      destruct (requestIds certs) as [|x l]; [reflexivity|].
      change (last (x :: l) (CertificateRequestId c) = last (x :: l) current).
      apply last_cons_default.
Qed.

Lemma sameIdThroughout_all :
  forall certs current,
    sameIdThroughout current certs = true -> current <> "" ->
    forall a, In a (requestIds certs) -> a = current.
Proof.
  induction certs as [|c certs IH]; intros current H Hne a Hin.
  - destruct Hin.
  - cbn [sameIdThroughout] in H. apply andb_prop in H as [H1 H2].
    apply orb_prop in H1 as [H1|H1];
      [apply String.eqb_eq in H1; contradiction|].
    apply String.eqb_eq in H1. destruct Hin as [<-|Hin]; [now symmetry|].
    rewrite H1. apply (IH _ H2); [now rewrite <- H1|exact Hin].
Qed.




Lemma resolvePickupID_by_fingerprint :
  forall c req st sr st1,
    PickupID req = "" -> Thumbprint req <> "" ->
    searchCertificatesByFingerprint c (Thumbprint req) st = (Ok sr, st1) ->
    resolvePickupID c req st
    = (match Certificates sr with
       | [] => Err (Errorf "No certifiate found using fingerprint %s"
                      [ArgStr (Thumbprint req)])
       | _ :: _ =>
           if sameIdThroughout "" (Certificates sr)
           then Ok (set_PickupID req (last (requestIds (Certificates sr)) ""))
           else Err (Errorf
                  "More than one CertificateRequestId was found with the same Fingerprint: %s"
                  [ArgStrs (requestIds (Certificates sr))])
       end, st1).
Proof.
  intros c req st sr st1 Hid Hfp Hsearch. unfold resolvePickupID.
  rewrite Hid. apply String.eqb_neq in Hfp. rewrite Hfp. cbn [String.eqb andb negb].
  rewrite (bind_run _ _ _ _ _ _ _ Hsearch).
  destruct (Certificates sr) as [|x certs] eqn:E; [reflexivity|].
  rewrite rangeCertificates_spec. cbn [andb app].
  destruct (sameIdThroughout "" (x :: certs)); reflexivity.
Qed.

Lemma renewalRequestId_by_fingerprint :
  forall c renewReq st sr st1,
    rr_Thumbprint renewReq <> "" ->
    searchCertificatesByFingerprint c (rr_Thumbprint renewReq) st = (Ok sr, st1) ->
    renewalRequestId c renewReq st
    = (match Certificates sr with
       | [] => Err (Errorf "No certifiate found using fingerprint %s"
                      [ArgStr (rr_Thumbprint renewReq)])
       | _ :: _ =>
           if sameIdThroughout "" (Certificates sr)
           then Ok (last (requestIds (Certificates sr)) "")
           else Err (Errorf
                  "Error: more than one CertificateRequestId was found with the same Fingerprint: %s"
                  [ArgStrs (requestIds (Certificates sr))])
       end, st1).
Proof.
  intros c renewReq st sr st1 Hfp Hsearch. unfold renewalRequestId.
  apply String.eqb_neq in Hfp. rewrite Hfp. cbn [negb].
  rewrite (bind_run _ _ _ _ _ _ _ Hsearch).
  destruct (Certificates sr) as [|x certs] eqn:E; [reflexivity|].
  rewrite rangeCertificates_spec. cbn [andb app].
  destruct (sameIdThroughout "" (x :: certs)); reflexivity.
Qed.




(** ** Renewal *)

Lemma getManagedCertificate_log :
  forall c id st,
    log (snd (getManagedCertificate c id st))
    = log st ++ [EvRequest "GET" (managedCertificateURL c id) PNil].
Proof.
  intros. unfold getManagedCertificate. rewrite bind_surj.
  fold (managedCertificateURL c id).
  rewrite <- (c_request_log c "GET" (managedCertificateURL c id) PNil [] st).
  destruct (err _); [reflexivity|].
  destruct (statusCode _ =? http_StatusOK).
  - destruct (json_Unmarshal_managedCertificate _); reflexivity.
  - destruct (body _); [|reflexivity].
    destruct (parseResponseErrors _); reflexivity.
Qed.

(** The 1st step of a renewal sends no certificate request. *)
Lemma renewalRequestId_log :
  forall c renewReq st,
    exists evs,
      log (snd (renewalRequestId c renewReq st)) = log st ++ evs /\
      existsb isSubmission evs = false.
Proof.
  intros. unfold renewalRequestId.
  destruct (negb (String.eqb (rr_Thumbprint renewReq) "")).
  - rewrite bind_surj, searchCertificatesByFingerprint_normal.
    eexists. split.
    + rewrite <- searchCertificates_log.
      destruct (fst (searchCertificates c _ st)) as [sr|e]; [|reflexivity].
      destruct (Certificates sr) as [|x certs]; [reflexivity|].
      destruct (rangeCertificates (x :: certs) [] true "") as [[ids flag] id].
      destruct (negb flag); reflexivity.
    + reflexivity.
  - exists []. rewrite app_nil_r.
    destruct (negb (String.eqb (rr_CertificateDN renewReq) "")); now split.
Qed.


(** ** The policy merge *)

(** The loop of [getPoliciesByID] is the fetch of the fragments followed by
    the merge of those fetched. *)
Lemma rangePolicyIDs_fetch :
  forall c ids policy st,
    rangePolicyIDs c ids policy st
    = (match snd (fst (fetchPolicyFragments c ids st)) with
       | Some e => Err e
       | None =>
           Ok (fold_left mergePolicy
                 (fst (fst (fetchPolicyFragments c ids st))) policy)
       end, snd (fetchPolicyFragments c ids st)).
Proof.
  intros c ids. induction ids as [|id ids IH]; intros policy st.
  - reflexivity.
  - cbn [rangePolicyIDs fetchPolicyFragments]. fold (policyURL c id).
    rewrite !bind_surj.
    destruct (parseCertificatePolicyResult _ _ _) as [p|e]; [|reflexivity].
    rewrite IH, bind_surj. reflexivity.
Qed.

Lemma not_both_types :
  forall ty,
    String.eqb ty certificatePolicyTypeIdentity = true ->
    String.eqb ty certificatePolicyTypeUse = true -> False.
Proof.
  intros ty H1 H2. apply String.eqb_eq in H1, H2.
  apply certificatePolicyTypes_differ. congruence.
Qed.

Lemma fold_mergePolicy :
  forall ps policy, fold_left mergePolicy ps policy = overridden policy ps.
Proof.
  induction ps as [|p ps IH]; intros policy.
  - destruct policy; reflexivity.
  - cbn [fold_left]. rewrite IH. unfold overridden, mergePolicy.
    cbn [lastOfType].
    destruct (lastOfType certificatePolicyTypeIdentity ps) as [i|];
      destruct (lastOfType certificatePolicyTypeUse ps) as [u|];
      destruct (String.eqb (CertificatePolicyType p)
                  certificatePolicyTypeIdentity) eqn:Ei;
      destruct (String.eqb (CertificatePolicyType p)
                  certificatePolicyTypeUse) eqn:Eu;
      try (exfalso; exact (not_both_types _ Ei Eu));
      reflexivity.
Qed.



(** ** Retrieval *)


(** ** Submission *)

Lemma userOrCompanyNil_user :
  forall c, userOrCompanyNil c = false -> exists u, user c = Some u.
Proof.
  intros c H. unfold userOrCompanyNil in H.
  destruct (user c) as [u|]; [now exists u|discriminate].
Qed.

Lemma getZoneByTag_log :
  forall c tag st u,
    user c = Some u ->
    log (snd (getZoneByTag c tag st))
    = log st ++ [EvRequest "GET" (zoneByTagURL c tag) PNil].
Proof.
  intros c tag st u Hu. unfold getZoneByTag. rewrite Hu, bind_surj.
  fold (zoneByTagURL c tag).
  rewrite <- (c_request_log c "GET" (zoneByTagURL c tag) PNil [] st).
  destruct (err _); [reflexivity|].
  destruct (parseZoneConfigurationResult _ _ _); reflexivity.
Qed.

(** [RequestCertificate] once its two guards have passed. *)
Lemma RequestCertificate_guarded :
  forall c req zone st,
    CsrOrigin req <> ServiceGeneratedCSR ->
    userOrCompanyNil c = false ->
    RequestCertificate c req zone st
    = let tag := if String.eqb zone "" then c_zone c else zone in
      let (rz, st1) := getZoneByTag c tag st in
      match rz with
      | Err e => ((req, Returns (Err e)), st1)
      | Ok z =>
          let (r, st2) :=
            c_request c "POST" (getURL c urlResourceCertificateRequests)
              (submission req z) [] st1 in
          match err r with
          | Some e => ((req, Returns (Err e)), st2)
          | None =>
              match parseCertificateRequestResult
                      (statusCode r) (status r) (body r) with
              | Err e => ((req, Returns (Err e)), st2)
              | Ok cr =>
                  match CertificateRequests cr with
                  | [] =>
                      ((req, Panics
                         "runtime error: index out of range [0] with length 0"),
                       st2)
                  | d :: _ =>
                      ((set_PickupID req (crd_ID d), Returns (Ok (crd_ID d))),
                       st2)
                  end
              end
          end
      end.
Proof.
  intros c req zone st Horigin Hauth. unfold RequestCertificate.
  apply Z.eqb_neq in Horigin. rewrite Horigin, Hauth. cbv zeta.
  unfold bind, ret, submission.
  destruct (getZoneByTag c _ st) as [[z|e] st1]; [|reflexivity].
  destruct (c_request c "POST" _ _ [] st1) as [r st2].
  destruct (err r); [reflexivity|].
  destruct (parseCertificateRequestResult _ _ _) as [cr|e]; [|reflexivity].
  destruct (CertificateRequests cr); reflexivity.
Qed.

(** C8.  [RequestCertificate] with an empty zone is [RequestCertificate]
    with the zone of the connector, and the zone looked up is that one.  A
    request whose CSR origin is service-generated fails with the
    unsupported-origin error and the state is untouched: no request has
    been made.  Otherwise, a connector without a user, or whose user has no
    company, fails with the not-authenticated error, again without any
    request. *)
Theorem C8_request_guards :
  forall (c : Connector) (req : Request) (zone : string) (st : State),
    RequestCertificate c req "" st = RequestCertificate c req (c_zone c) st
    /\ (CsrOrigin req = ServiceGeneratedCSR ->
          RequestCertificate c req zone st
          = ((req, Returns (Err (Errorf
                "service generated CSR is not supported by Saas service" []))),
             st))
    /\ (CsrOrigin req <> ServiceGeneratedCSR ->
        userOrCompanyNil c = true ->
          RequestCertificate c req zone st
          = ((req, Returns (Err (Errorf
                "Must be autheticated to request a certificate" []))),
             st))
    /\ (CsrOrigin req <> ServiceGeneratedCSR ->
        userOrCompanyNil c = false ->
          exists evs,
            log (snd (RequestCertificate c req zone st))
            = log st
              ++ EvRequest "GET"
                   (zoneByTagURL c
                      (if String.eqb zone "" then c_zone c else zone)) PNil
                 :: evs).
Proof.
  intros c req zone st. repeat split.
  - unfold RequestCertificate. cbn [String.eqb].
    destruct (String.eqb (c_zone c) "") eqn:E; [|reflexivity].
    apply String.eqb_eq in E. now rewrite E.
  - intros Horigin. unfold RequestCertificate.
    apply Z.eqb_eq in Horigin. now rewrite Horigin.
  - intros Horigin Hauth. unfold RequestCertificate.
    apply Z.eqb_neq in Horigin. now rewrite Horigin, Hauth.
  - intros Horigin Hauth.
    rewrite (RequestCertificate_guarded _ _ _ _ Horigin Hauth). cbv zeta.
    destruct (userOrCompanyNil_user _ Hauth) as [u Hu].
    pose proof (getZoneByTag_log c
                  (if String.eqb zone "" then c_zone c else zone) st u Hu) as L.
    destruct (getZoneByTag c _ st) as [[z|e] st1]; cbn [snd] in L |- *.
    + pose proof (c_request_log c "POST"
                    (getURL c urlResourceCertificateRequests)
                    (submission req z) [] st1) as L2.
      destruct (c_request c "POST" _ _ [] st1) as [r st2]. cbn [snd] in L2.
      exists [EvRequest "POST" (getURL c urlResourceCertificateRequests)
                (submission req z)].
      assert (log st2 = log st ++ EvRequest "GET"
                (zoneByTagURL c (if String.eqb zone "" then c_zone c else zone))
                PNil :: [EvRequest "POST"
                           (getURL c urlResourceCertificateRequests)
                           (submission req z)]) as Hst2
        by (rewrite L2, L, <- app_assoc; reflexivity).
      destruct (err r); [exact Hst2|].
      destruct (parseCertificateRequestResult _ _ _) as [cr|e];
        [|exact Hst2].
      destruct (CertificateRequests cr); exact Hst2.
    + exists []. exact L.
Qed.

(** C10.  Both [RequestCertificate] and [RenewCertificate] index the list
    of request identifiers of the parsed acknowledgment at 0 without
    looking at its length.  Once the guards have passed, the request has
    been posted without a transport error and the acknowledgment has been
    parsed: an empty list makes the call panic (index out of range), and a
    non-empty one makes it return the identifier of the first element, which
    [RequestCertificate] also writes to [req.PickupID]. *)
Theorem C10_first_request_id :
  forall (c : Connector) (cr : certificateRequestResponse),
    userOrCompanyNil c = false ->
    (forall (req : Request) (tag : string) (st st1 : State) (z : zone),
        CsrOrigin req <> ServiceGeneratedCSR ->
        getZoneByTag c (if String.eqb tag "" then c_zone c else tag) st
        = (Ok z, st1) ->
        let posted :=
          c_request c "POST" (getURL c urlResourceCertificateRequests)
            (submission req z) [] st1 in
        err (fst posted) = None ->
        parseCertificateRequestResult (statusCode (fst posted))
          (status (fst posted)) (body (fst posted)) = Ok cr ->
        RequestCertificate c req tag st
        = (match CertificateRequests cr with
           | [] =>
               (req, Panics
                  "runtime error: index out of range [0] with length 0")
           | d :: _ => (set_PickupID req (crd_ID d), Returns (Ok (crd_ID d)))
           end, snd posted))
    /\ (forall (renewReq : RenewalRequest) (st st1 st2 st3 : State)
               (id : string) (previousRequest : certificateStatus)
               (mc : managedCertificate),
          renewalRequestId c renewReq st = (Ok id, st1) ->
          getCertificateStatus c id st1 = (Ok previousRequest, st2) ->
          cs_ManagedCertificateId previousRequest <> "" ->
          cs_ZoneId previousRequest <> "" ->
          getManagedCertificate c (cs_ManagedCertificateId previousRequest) st2
          = (Ok mc, st3) ->
          mc_LatestCertificateRequestId mc = id ->
          let posted :=
            c_request c "POST" (getURL c urlResourceCertificateRequests)
              (renewal renewReq (cs_ZoneId previousRequest)
                 (cs_ManagedCertificateId previousRequest)) [] st3 in
          err (fst posted) = None ->
          parseCertificateRequestResult (statusCode (fst posted))
            (status (fst posted)) (body (fst posted)) = Ok cr ->
          RenewCertificate c renewReq st
          = (match CertificateRequests cr with
             | [] =>
                 Panics "runtime error: index out of range [0] with length 0"
             | d :: _ => Returns (Ok (crd_ID d))
             end, snd posted)).
Proof.
  intros c cr Hauth. split.
  - intros req tag st st1 z Horigin Hzone posted Herr Hparse.
    rewrite (RequestCertificate_guarded _ _ _ _ Horigin Hauth). cbv zeta.
    rewrite Hzone. subst posted.
    destruct (c_request c "POST" _ _ [] st1) as [r st2]. cbn [fst snd] in *.
    rewrite Herr, Hparse. destruct (CertificateRequests cr); reflexivity.
  - intros renewReq st st1 st2 st3 id prev mc H1 H2 Hmc Hzone H3 Hlatest
           posted Herr Hparse.
    unfold RenewCertificate.
    rewrite (bind_run _ _ _ _ _ _ _ H1), (bind_run _ _ _ _ _ _ _ H2).
    apply String.eqb_neq in Hmc, Hzone. rewrite Hmc, Hzone.
    rewrite (bind_run _ _ _ _ _ _ _ H3), Hlatest, String.eqb_refl.
    cbn [negb]. unfold submitRenewal. rewrite Hauth.
    assert (forall st', c_request c "POST"
              (getURL c urlResourceCertificateRequests)
              (PCertificateRequest
                 match rr_CertificateRequest renewReq with
                 | Some cr0 =>
                     if 0 <? Z.of_nat (String.length (CSR cr0)) then
                       {| cr_ZoneID := cs_ZoneId prev; cr_CSR := CSR cr0;
                          cr_ExistingManagedCertificateId :=
                            cs_ManagedCertificateId prev;
                          cr_ReuseCSR := false |}
                     else
                       {| cr_ZoneID := cs_ZoneId prev; cr_CSR := "";
                          cr_ExistingManagedCertificateId :=
                            cs_ManagedCertificateId prev;
                          cr_ReuseCSR := true |}
                 | None =>
                     {| cr_ZoneID := cs_ZoneId prev; cr_CSR := "";
                        cr_ExistingManagedCertificateId :=
                          cs_ManagedCertificateId prev;
                        cr_ReuseCSR := true |}
                 end) [] st'
              = c_request c "POST" (getURL c urlResourceCertificateRequests)
                  (renewal renewReq (cs_ZoneId prev)
                     (cs_ManagedCertificateId prev)) [] st') as Hsame
      by reflexivity.
    unfold bind. rewrite Hsame. subst posted.
    destruct (c_request c "POST" _ _ [] st3) as [r st4]. cbn [fst snd] in *.
    rewrite Herr, Hparse. destruct (CertificateRequests cr); reflexivity.
Qed.

(** ** No cancellation *)

Section Indistinguishable.
Variable R : World -> World -> Prop.
Hypothesis HR : Indistinguishable R.

Lemma respects_ret : forall (A : Type) (a : A), respects R (ret a).
Proof. intros A a st1 st2 H. now split. Qed.

Lemma respects_bind :
  forall (A B : Type) (m : M A) (k : A -> M B),
    respects R m -> (forall a, respects R (k a)) -> respects R (bind m k).
Proof.
  intros A B m k Hm Hk st1 st2 H. unfold bind.
  destruct (Hm st1 st2 H) as [Hv Hs].
  destruct (m st1) as [a1 s1], (m st2) as [a2 s2]. cbn [fst snd] in *.
  subst a2. now apply Hk.
Qed.

Lemma respects_request :
  forall c method url data auth,
    respects R (c_request c method url data auth).
Proof.
  intros c method url data auth st1 st2 [Hw Hl]. rewrite !c_request_run.
  destruct (same_request R HR c method url data auth _ _ Hw) as [Hv Hs].
  cbn [fst snd]. split; [exact Hv|]. split; cbn [world log];
    [exact Hs|now rewrite Hl].
Qed.

Lemma respects_now : respects R time_Now.
Proof.
  intros st1 st2 [Hw Hl]. unfold time_Now.
  destruct (same_now R HR _ _ Hw) as [Hv Hs].
  destruct (now (world st1)), (now (world st2)). cbn [fst snd] in *.
  split; [exact Hv|]. now split.
Qed.

Lemma respects_sleep : forall d, respects R (time_Sleep d).
Proof.
  intros d st1 st2 [Hw Hl]. unfold time_Sleep. cbn [fst snd].
  split; [reflexivity|]. split; cbn [world log].
  - exact (same_sleep R HR d _ _ Hw).
  - now rewrite Hl.
Qed.

(** Walk down a computation built of binds, tests and returns. *)
Ltac respects_step :=
  first
    [ apply respects_ret
    | apply respects_request
    | apply respects_now
    | apply respects_sleep
    | apply respects_bind; [|intros ?]
    | match goal with
      | |- respects _ (if ?b then _ else _) => destruct b
      | |- respects _ (match ?x with _ => _ end) => destruct x
      end ].

Lemma respects_getCertificateStatus :
  forall c requestID, respects R (getCertificateStatus c requestID).
Proof. intros. unfold getCertificateStatus. repeat respects_step. Qed.

Lemma respects_searchCertificatesByFingerprint :
  forall c fp, respects R (searchCertificatesByFingerprint c fp).
Proof.
  intros. unfold searchCertificatesByFingerprint, searchCertificates.
  repeat respects_step.
Qed.

Lemma respects_resolvePickupID :
  forall c req, respects R (resolvePickupID c req).
Proof.
  intros. unfold resolvePickupID.
  destruct (_ && _); [|apply respects_ret].
  apply respects_bind; [apply respects_searchCertificatesByFingerprint|].
  intros sr. repeat respects_step.
Qed.

Lemma respects_fetchCertificate :
  forall c req, respects R (fetchCertificate c req).
Proof. intros. unfold fetchCertificate. repeat respects_step. Qed.

Lemma respects_pollStatus :
  forall fuel c req startTime, respects R (pollStatus fuel c req startTime).
Proof.
  induction fuel as [|fuel IH]; intros c req startTime; cbn [pollStatus].
  - apply respects_ret.
  - apply respects_bind; [apply respects_getCertificateStatus|].
    intros [certStatus|e]; [|apply respects_ret].
    destruct (String.eqb _ "ISSUED"); [apply respects_ret|].
    destruct (String.eqb _ "FAILED"); [apply respects_ret|].
    destruct (Timeout req =? 0); [apply respects_ret|].
    apply respects_bind; [apply respects_now|]. intros t.
    destruct (t >? _); [apply respects_ret|].
    apply respects_bind; [apply respects_sleep|]. intros _. apply IH.
Qed.

Lemma respects_RetrieveCertificate :
  forall fuel c req, respects R (RetrieveCertificate fuel c req).
Proof.
  intros. unfold RetrieveCertificate.
  destruct (FetchPrivateKey req); [apply respects_ret|].
  apply respects_bind; [apply respects_resolvePickupID|].
  intros [req'|e]; [|apply respects_ret].
  apply respects_bind; [apply respects_now|]. intros startTime.
  apply respects_bind; [|intros; apply respects_ret].
  unfold pollAndFetch.
  apply respects_bind; [apply respects_pollStatus|].
  intros [[|e]|]; try apply respects_ret.
  apply respects_bind; [apply respects_fetchCertificate|].
  intros; apply respects_ret.
Qed.

End Indistinguishable.

Lemma pollStatus_errors :
  forall fuel c req startTime st e,
    fst (pollStatus fuel c req startTime st) = Some (ReturnErr e) ->
    pollLoopError req e.
Proof.
  induction fuel as [|fuel IH]; intros c req startTime st e; cbn [pollStatus].
  - discriminate.
  - unfold bind, ret.
    destruct (getCertificateStatus c (PickupID req) st) as [[cs|e'] st1].
    2:{ cbn [fst]. intros [= <-]. left. now exists e'. }
    destruct (String.eqb (cs_Status cs) "ISSUED"); [discriminate|].
    destruct (String.eqb (cs_Status cs) "FAILED").
    { cbn [fst]. intros [= <-]. right; left. now exists cs. }
    destruct (Timeout req =? 0).
    { cbn [fst]. intros [= <-]. right; right; left. now eexists. }
    destruct (time_Now st1) as [t st2].
    destruct (t >? startTime + Timeout req).
    { cbn [fst]. intros [= <-]. now right; right; right. }
    apply IH.
Qed.

(** C9, as the code has it.  The poll loop of [RetrieveCertificate] has no
    cancellation check.  Two runs from states with the same trace, in
    worlds that answer the transport, the clock and the sleep alike (they
    may differ in anything else, a cancellation signal raised by the host
    for one), return the same value and make the same requests and sleeps.
    And the loop ends with an error only in four ways: the status fetch
    failed, the status is FAILED, the status is pending with a zero timeout
    ([ErrCertificatePending]), or the timeout has passed
    ([ErrRetrieveCertificateTimeout]). *)
Theorem C9_no_cancellation :
  forall (R : World -> World -> Prop) (fuel : nat) (c : Connector)
         (req : Request) (st1 st2 : State),
    Indistinguishable R ->
    R (world st1) (world st2) ->
    log st1 = log st2 ->
    fst (RetrieveCertificate fuel c req st1)
    = fst (RetrieveCertificate fuel c req st2)
    /\ log (snd (RetrieveCertificate fuel c req st1))
       = log (snd (RetrieveCertificate fuel c req st2))
    /\ forall startTime e,
         fst (pollStatus fuel c req startTime st1) = Some (ReturnErr e) ->
         pollLoopError req e.
Proof.
  intros R fuel c req st1 st2 HR Hw Hl.
  destruct (respects_RetrieveCertificate R HR fuel c req st1 st2
              (conj Hw Hl)) as [Hv [_ Hlog]].
  repeat split; [exact Hv|exact Hlog|].
  intros startTime e. apply pollStatus_errors.
Qed.

End Properties.

(** * More properties *)

Section MoreProperties.
Context {FT : ForeignTypes} {P : Platform} {K : Package}.

(** ** The trace of a retrieval *)

Lemma pollStatus_pass :
  forall fuel c req startTime st,
    pollStatus (S fuel) c req startTime st
    = let (rs, st1) := getCertificateStatus c (PickupID req) st in
      match rs with
      | Err e =>
          (Some (ReturnErr (Errorf "unable to retrieve: %s" [ArgErr e])), st1)
      | Ok certStatus =>
          if String.eqb (cs_Status certStatus) "ISSUED" then (Some Break, st1)
          else if String.eqb (cs_Status certStatus) "FAILED" then
            (Some (ReturnErr (Errorf
               "Failed to retrieve certificate. Status: %v"
               [ArgStatus certStatus])), st1)
          else if Timeout req =? 0 then
            (Some (ReturnErr (ErrCertificatePending (PickupID req)
                                (cs_Status certStatus))), st1)
          else
            let (t, st2) := time_Now st1 in
            if t >? startTime + Timeout req then
              (Some (ReturnErr (ErrRetrieveCertificateTimeout (PickupID req))),
               st2)
            else
              pollStatus fuel c req startTime
                (snd (time_Sleep pollInterval st2))
      end.
Proof.
  intros. cbn [pollStatus]. unfold bind, ret.
  destruct (getCertificateStatus c (PickupID req) st) as [[cs|e] st1];
    [|reflexivity].
  destruct (String.eqb (cs_Status cs) "ISSUED"); [reflexivity|].
  destruct (String.eqb (cs_Status cs) "FAILED"); [reflexivity|].
  destruct (Timeout req =? 0); [reflexivity|].
  destruct (time_Now st1) as [t st2].
  destruct (t >? startTime + Timeout req); reflexivity.
Qed.

(** The poll loop adds rounds of a poll and a sleep, and a last poll when
    it ends. *)
Lemma pollStatus_added :
  forall fuel c req startTime st,
    exists k,
      (k <= fuel)%nat /\
      added st (snd (pollStatus fuel c req startTime st))
        (pollRounds (pollEvent c (PickupID req)) k
         ++ match fst (pollStatus fuel c req startTime st) with
            | None => []
            | Some _ => [pollEvent c (PickupID req)]
            end) /\
      (fst (pollStatus fuel c req startTime st) = None -> k = fuel) /\
      (Timeout req = 0 -> k = O).
Proof.
  unfold added.
  induction fuel as [|fuel IH]; intros c req startTime st.
  - exists O. cbn. rewrite app_nil_r. repeat split; reflexivity.
  - rewrite pollStatus_pass.
    pose proof (getCertificateStatus_log c (PickupID req) st) as L.
    fold (pollEvent c (PickupID req)) in L.
    destruct (getCertificateStatus c (PickupID req) st) as [[cs|e] st1];
      cbn [snd] in L.
    2:{ exists O. cbn. repeat split; try exact L; try lia; discriminate. }
    destruct (String.eqb (cs_Status cs) "ISSUED").
    { exists O. cbn. repeat split; try exact L; try lia; discriminate. }
    destruct (String.eqb (cs_Status cs) "FAILED").
    { exists O. cbn. repeat split; try exact L; try lia; discriminate. }
    destruct (Timeout req =? 0) eqn:Ez.
    { exists O. cbn. repeat split; try exact L; try lia; discriminate. }
    pose proof (time_Now_log st1) as L2.
    destruct (time_Now st1) as [t st2]. cbn [snd] in L2.
    destruct (t >? startTime + Timeout req).
    { exists O. cbn. repeat split; try lia; try discriminate.
      now rewrite L2. }
    destruct (IH c req startTime (snd (time_Sleep pollInterval st2)))
      as (k & Hk & Hlog & Hnone & _).
    exists (S k). split; [lia|]. split; [|split].
    + rewrite Hlog. cbn [time_Sleep snd log pollRounds].
      rewrite L2, L, <- !app_assoc. reflexivity.
    + intros Hn. now rewrite (Hnone Hn).
    + intros Hz. apply Z.eqb_neq in Ez. contradiction.
Qed.

Lemma fetchCertificate_added :
  forall c req st,
    added st (snd (fetchCertificate c req st))
      (if userOrCompanyNil c then []
       else [EvRequest "GET" (certificateURL c req) PNil]).
Proof.
  intros. unfold added, fetchCertificate, certificateURL.
  destruct (userOrCompanyNil c); [cbn; now rewrite app_nil_r|].
  replace (if ChainOption req =? ChainOptionRootFirst
           then Sprintf
                  (Sprintf (getURL c urlResourceCertificateRetrieve)
                     [ArgStr (PickupID req)] +++ "?chainOrder=%s&format=PEM")
                  [ArgStr condorChainOptionRootFirst]
           else Sprintf
                  (Sprintf (getURL c urlResourceCertificateRetrieve)
                     [ArgStr (PickupID req)] +++ "?chainOrder=%s&format=PEM")
                  [ArgStr condorChainOptionRootLast])
    with (Sprintf
            (Sprintf (getURL c urlResourceCertificateRetrieve)
               [ArgStr (PickupID req)] +++ "?chainOrder=%s&format=PEM")
            [ArgStr (if ChainOption req =? ChainOptionRootFirst
                     then condorChainOptionRootFirst
                     else condorChainOptionRootLast)])
    by (destruct (ChainOption req =? ChainOptionRootFirst); reflexivity).
  rewrite bind_surj.
  match goal with
  | |- context [c_request c "GET" ?u PNil [] st] =>
      rewrite <- (c_request_log c "GET" u PNil [] st);
      destruct (err (fst (c_request c "GET" u PNil [] st)));
      [reflexivity|];
      destruct (statusCode (fst (c_request c "GET" u PNil [] st))
                =? http_StatusOK); [reflexivity|];
      destruct (statusCode (fst (c_request c "GET" u PNil [] st))
                =? http_StatusConflict); reflexivity
  end.
Qed.

(** What the fingerprint search of [RetrieveCertificate] leaves: the
    request with a pickup id, after the search at most. *)
Lemma resolvePickupID_added :
  forall c req st,
    added st (snd (resolvePickupID c req st))
      (if String.eqb (PickupID req) ""
          && negb (String.eqb (Thumbprint req) "")
       then [searchEvent c (Thumbprint req)] else [])
    /\ match fst (resolvePickupID c req st) with
       | Ok req' =>
           req' = req \/
           (PickupID req = "" /\ Thumbprint req <> "" /\
            exists id, req' = set_PickupID req id)
       | Err _ => True
       end.
Proof.
  intros. unfold added, resolvePickupID.
  destruct (String.eqb (PickupID req) "") eqn:Ep;
    destruct (String.eqb (Thumbprint req) "") eqn:Et; cbn [andb negb];
    try (cbn; rewrite app_nil_r; split; [reflexivity|now left]).
  apply String.eqb_eq in Ep. apply String.eqb_neq in Et.
  rewrite bind_surj, searchCertificatesByFingerprint_normal.
  pose proof (searchCertificates_log c
                (fingerprintSearch (ToUpper (stripSeparators (Thumbprint req))))
                st) as L.
  fold (searchEvent c (Thumbprint req)) in L.
  destruct (searchCertificates c _ st) as [[sr|e] st1]; cbn [fst snd] in *.
  2:{ split; [exact L|exact I]. }
  destruct (Certificates sr) as [|x certs]; [split; [exact L|exact I]|].
  destruct (rangeCertificates (x :: certs) [] true "") as [[ids flag] id].
  destruct (negb flag); cbn; split; try exact L; try exact I.
  right. repeat split; try assumption. now exists id.
Qed.

Lemma pollRounds_quiet :
  forall poll k,
    isSubmission poll = false ->
    existsb isSubmission (pollRounds poll k) = false.
Proof.
  intros poll k Hp. induction k as [|k IH]; [reflexivity|].
  cbn [pollRounds existsb]. now rewrite Hp, IH.
Qed.

Lemma RetrieveCertificate_run :
  forall fuel c req st,
    RetrieveCertificate fuel c req st
    = if FetchPrivateKey req then
        ((req, Some (Err (Errorf
            "Failed to retrieve private key from Venafi Cloud service: not supported"
            []))), st)
      else
        let (rp, st1) := resolvePickupID c req st in
        match rp with
        | Err e => ((req, Some (Err e)), st1)
        | Ok req' =>
            let (startTime, st2) := time_Now st1 in
            let (r, st3) := pollAndFetch fuel c req' startTime st2 in
            ((req', r), st3)
        end.
Proof.
  intros. unfold RetrieveCertificate.
  destruct (FetchPrivateKey req); [reflexivity|].
  unfold bind at 1.
  destruct (resolvePickupID c req st) as [[req'|e] st1]; [|reflexivity].
  unfold bind at 1. destruct (time_Now st1) as [startTime st2].
  unfold bind. destruct (pollAndFetch fuel c req' startTime st2).
  reflexivity.
Qed.

Lemma RetrieveCertificate_added :
  forall fuel c req st req' res st',
    RetrieveCertificate fuel c req st = ((req', res), st') ->
    exists (search : list Event) (k : nat) (tail : list Event),
      log st'
      = log st ++ search ++ pollRounds (pollEvent c (PickupID req')) k ++ tail
      /\ (search = [] \/
          (search = [searchEvent c (Thumbprint req)] /\
           PickupID req = "" /\ Thumbprint req <> ""))
      /\ (k <= fuel)%nat
      /\ (tail = [] \/
          tail = [pollEvent c (PickupID req')] \/
          tail = [pollEvent c (PickupID req');
                  EvRequest "GET" (certificateURL c req') PNil])
      /\ existsb isSubmission (search ++ tail) = false
      /\ (Timeout req = 0 -> k = O)
      /\ (req' = req \/
          (PickupID req = "" /\ Thumbprint req <> "" /\
           exists id, req' = set_PickupID req id)).
Proof.
  intros fuel c req st req' res st' H. unfold RetrieveCertificate in H.
  destruct (FetchPrivateKey req).
  { cbn in H. inversion H; subst. exists [], O, []. cbn.
    rewrite app_nil_r. repeat split; auto; lia. }
  destruct (resolvePickupID_added c req st) as [Lr Hreq]. unfold added in Lr.
  assert (Hs : (if String.eqb (PickupID req) ""
                   && negb (String.eqb (Thumbprint req) "")
                then [searchEvent c (Thumbprint req)] else []) = []
               \/ ((if String.eqb (PickupID req) ""
                       && negb (String.eqb (Thumbprint req) "")
                    then [searchEvent c (Thumbprint req)] else [])
                   = [searchEvent c (Thumbprint req)]
                   /\ PickupID req = "" /\ Thumbprint req <> "")).
  { destruct (String.eqb (PickupID req) "") eqn:Ep;
      destruct (String.eqb (Thumbprint req) "") eqn:Et; cbn [andb negb];
      auto.
    right. apply String.eqb_eq in Ep. apply String.eqb_neq in Et. auto. }
  set (search := if String.eqb (PickupID req) ""
                    && negb (String.eqb (Thumbprint req) "")
                 then [searchEvent c (Thumbprint req)] else []) in *.
  assert (Hq : existsb isSubmission search = false).
  { destruct Hs as [-> | [-> _]]; reflexivity. }
  unfold bind at 1 in H.
  destruct (resolvePickupID c req st) as [[req0|e] st1];
    cbn [fst snd] in Lr, Hreq.
  2:{ cbn in H. inversion H; subst. exists search, O, [].
      cbn [pollRounds app]. rewrite !app_nil_r. repeat split; auto; lia. }
  assert (Htime : Timeout req0 = Timeout req)
    by (destruct Hreq as [->|(_ & _ & id & ->)]; reflexivity).
  pose proof (time_Now_log st1) as Ln.
  unfold bind at 1 in H.
  destruct (time_Now st1) as [startTime st2]. cbn [snd] in Ln.
  unfold bind at 1 in H. unfold pollAndFetch in H. unfold bind at 1 in H.
  destruct (pollStatus_added fuel c req0 startTime st2)
    as (k & Hk & Lp & _ & Hzero).
  rewrite Htime in Hzero. unfold added in Lp.
  destruct (pollStatus fuel c req0 startTime st2) as [[[|e]|] st3];
    cbn [fst snd] in Lp.
  - pose proof (fetchCertificate_added c req0 st3) as Lf. unfold added in Lf.
    unfold bind in H. destruct (fetchCertificate c req0 st3) as [r st4].
    cbn [fst snd ret] in *. inversion H; subst.
    exists search, k,
      ([pollEvent c (PickupID req')]
       ++ (if userOrCompanyNil c then []
           else [EvRequest "GET" (certificateURL c req') PNil])).
    repeat split; auto.
    + rewrite Lf, Lp, Ln, Lr, <- !app_assoc. reflexivity.
    + destruct (userOrCompanyNil c); cbn; auto.
    + rewrite existsb_app, Hq. destruct (userOrCompanyNil c); reflexivity.
  - cbn [ret] in H. inversion H; subst.
    exists search, k, [pollEvent c (PickupID req')].
    repeat split; auto.
    + rewrite Lp, Ln, Lr, <- !app_assoc. reflexivity.
    + rewrite existsb_app, Hq. reflexivity.
  - cbn [ret] in H. inversion H; subst.
    exists search, k, []. repeat split; auto.
    + rewrite Lp, Ln, Lr, <- !app_assoc. reflexivity.
    + rewrite app_nil_r. exact Hq.
Qed.

(** X1.  The trace of [RetrieveCertificate], whatever the service answers:
    the fingerprint search if the request had no pickup id but a
    thumbprint, then rounds of a status GET followed by a sleep of two
    seconds, then nothing more, or a last status GET, or a last status GET
    and the GET of the certificate.  So the call polls the status of the
    pickup id it returns in the request and of no other, never polls twice
    without sleeping in between, and never posts a certificate request. *)
Theorem RetrieveCertificate_trace :
  forall (fuel : nat) (c : Connector) (req : Request) (st : State),
    exists (search : list Event) (k : nat) (tail : list Event),
      log (snd (RetrieveCertificate fuel c req st))
      = log st ++ search
        ++ pollRounds
             (pollEvent c
                (PickupID (fst (fst (RetrieveCertificate fuel c req st))))) k
        ++ tail
      /\ (search = [] \/
          (search = [searchEvent c (Thumbprint req)] /\
           PickupID req = "" /\ Thumbprint req <> ""))
      /\ (k <= fuel)%nat
      /\ (tail = [] \/
          tail = [pollEvent c
                    (PickupID (fst (fst (RetrieveCertificate fuel c req st))))]
          \/
          tail = [pollEvent c
                    (PickupID (fst (fst (RetrieveCertificate fuel c req st))));
                  EvRequest "GET"
                    (certificateURL c
                       (fst (fst (RetrieveCertificate fuel c req st)))) PNil])
      /\ existsb isSubmission (search ++ tail) = false.
Proof.
  intros fuel c req st.
  destruct (RetrieveCertificate fuel c req st) as [[req' res] st'] eqn:E.
  destruct (RetrieveCertificate_added _ _ _ _ _ _ _ E)
    as (search & k & tail & H1 & H2 & H3 & H4 & H5 & _).
  exists search, k, tail. auto.
Qed.

(** X2.  [RetrieveCertificate] hands the request back as it got it, except
    that a request without pickup id but with a thumbprint may come back
    with the pickup id filled in; no other field is ever written. *)
Theorem RetrieveCertificate_request :
  forall (fuel : nat) (c : Connector) (req : Request) (st : State),
    fst (fst (RetrieveCertificate fuel c req st)) = req
    \/ (PickupID req = "" /\ Thumbprint req <> "" /\
        exists id,
          fst (fst (RetrieveCertificate fuel c req st))
          = set_PickupID req id).
Proof.
  intros fuel c req st.
  destruct (RetrieveCertificate fuel c req st) as [[req' res] st'] eqn:E.
  destruct (RetrieveCertificate_added _ _ _ _ _ _ _ E)
    as (search & k & tail & _ & _ & _ & _ & _ & _ & H).
  exact H.
Qed.

(** ** A zero timeout *)

Lemma pollAndFetch_zero_timeout :
  forall fuel c req startTime st,
    Timeout req = 0 ->
    pollAndFetch (S fuel) c req startTime st
    = pollAndFetch 1 c req startTime st
    /\ fst (pollAndFetch (S fuel) c req startTime st) <> None.
Proof.
  intros fuel c req startTime st Hz. rewrite !pollAndFetch_pass, Hz.
  change (0 =? 0) with true.
  destruct (getCertificateStatus c (PickupID req) st) as [[cs|e] st1].
  2:{ split; [reflexivity|discriminate]. }
  destruct (String.eqb (cs_Status cs) "ISSUED").
  { destruct (fetchCertificate c req st1). split; [reflexivity|discriminate]. }
  destruct (String.eqb (cs_Status cs) "FAILED");
    split; try reflexivity; discriminate.
Qed.

Lemma resolvePickupID_Timeout :
  forall c req st req' st1,
    resolvePickupID c req st = (Ok req', st1) -> Timeout req' = Timeout req.
Proof.
  intros c req st req' st1 H.
  pose proof (resolvePickupID_added c req st) as [_ Hreq].
  rewrite H in Hreq. cbn [fst] in Hreq.
  destruct Hreq as [->|(_ & _ & id & ->)]; reflexivity.
Qed.

Lemma pollRounds_no_sleep_0 :
  forall poll, existsb isSleep (pollRounds poll 0) = false.
Proof. reflexivity. Qed.

(** X3.  With a zero timeout [RetrieveCertificate] never waits: one pass
    of the loop ends the call, so the result does not depend on how many
    passes are allowed, and the trace holds no sleep and at most three
    requests (the search, one status GET, the GET of the certificate). *)
Theorem zero_timeout_never_waits :
  forall (fuel : nat) (c : Connector) (req : Request) (st : State),
    Timeout req = 0 ->
    RetrieveCertificate (S fuel) c req st = RetrieveCertificate 1 c req st
    /\ snd (fst (RetrieveCertificate (S fuel) c req st)) <> None
    /\ exists evs,
         log (snd (RetrieveCertificate (S fuel) c req st)) = log st ++ evs
         /\ existsb isSleep evs = false
         /\ (length evs <= 3)%nat.
Proof.
  intros fuel c req st Hz.
  assert (Heq : RetrieveCertificate (S fuel) c req st
                = RetrieveCertificate 1 c req st
                /\ snd (fst (RetrieveCertificate (S fuel) c req st)) <> None).
  { rewrite !RetrieveCertificate_run.
    destruct (FetchPrivateKey req); [split; [reflexivity|discriminate]|].
    destruct (resolvePickupID c req st) as [[req'|e] st1] eqn:Er;
      [|split; [reflexivity|discriminate]].
    pose proof (resolvePickupID_Timeout _ _ _ _ _ Er) as Ht.
    rewrite Hz in Ht.
    destruct (time_Now st1) as [startTime st2].
    destruct (pollAndFetch_zero_timeout fuel c req' startTime st2 Ht)
      as [Hsame Hn].
    rewrite Hsame in Hn |- *.
    destruct (pollAndFetch 1 c req' startTime st2) as [r st3].
    cbn [fst snd] in *. split; [reflexivity|exact Hn]. }
  destruct Heq as [Heq Hn]. split; [exact Heq|]. split; [exact Hn|].
  destruct (RetrieveCertificate (S fuel) c req st) as [[req' res] st'] eqn:E.
  destruct (RetrieveCertificate_added _ _ _ _ _ _ _ E)
    as (search & k & tail & Hlog & Hs & _ & Ht & _ & Hk & _).
  rewrite (Hk Hz) in Hlog. cbn [pollRounds app] in Hlog.
  exists (search ++ tail). cbn [snd]. split; [exact Hlog|].
  rewrite existsb_app, length_app.
  destruct Hs as [-> | [-> _]]; destruct Ht as [-> | [-> | ->]];
    cbn; split; reflexivity || lia.
Qed.

(** ** The poll loop ends *)

Lemma getCertificateStatus_world :
  forall c requestID st,
    world (snd (getCertificateStatus c requestID st))
    = snd (request c "GET" (statusURL c requestID) PNil [] (world st)).
Proof.
  intros. unfold getCertificateStatus. rewrite bind_surj, c_request_run.
  cbn [fst snd]. fold (statusURL c requestID).
  destruct (statusCode _ =? http_StatusOK).
  - destruct (json_Unmarshal_certificateStatus _); reflexivity.
  - destruct (parseResponseErrors _); reflexivity.
Qed.

Lemma time_Now_world :
  forall st,
    fst (time_Now st) = fst (now (world st))
    /\ world (snd (time_Now st)) = snd (now (world st)).
Proof.
  intro st. unfold time_Now. destruct (now (world st)); now split.
Qed.

Section Ticking.
Variable clockOf : World -> Z.
Variable Inv : World -> Prop.
Hypothesis Htick : TickingClock clockOf Inv.

Lemma resolvePickupID_Inv :
  forall c req st,
    Inv (world st) -> Inv (world (snd (resolvePickupID c req st))).
Proof.
  intros c req st Hinv. unfold resolvePickupID.
  destruct (_ && _); [|exact Hinv].
  rewrite bind_surj. unfold searchCertificatesByFingerprint, searchCertificates.
  rewrite bind_surj, c_request_run. cbn [fst snd].
  match goal with
  | |- context [request c ?m ?u ?d ?a (world st)] =>
      pose proof (proj1 (tick_request clockOf Inv Htick c m u d a _ Hinv)) as H
  end.
  destruct (ParseCertificateSearchResponse _ _) as [sr|e]; [|exact H].
  cbn [ret fst snd].
  destruct (Certificates sr) as [|x certs]; [exact H|].
  destruct (rangeCertificates (x :: certs) [] true "") as [[ids flag] id].
  destruct (negb flag); exact H.
Qed.

(** The loop ends within the passes that the time left allows. *)
Lemma pollStatus_ends :
  forall fuel c req startTime st,
    Inv (world st) ->
    startTime + Timeout req - clockOf (world st)
    < (Z.of_nat fuel - 1) * pollInterval ->
    (1 <= fuel)%nat ->
    fst (pollStatus fuel c req startTime st) <> None.
Proof.
  induction fuel as [|fuel IH]; intros c req startTime st Hinv Hleft Hfuel;
    [lia|].
  rewrite pollStatus_pass.
  pose proof (getCertificateStatus_world c (PickupID req) st) as Hw.
  destruct (tick_request clockOf Inv Htick c "GET"
              (statusURL c (PickupID req)) PNil [] _ Hinv) as [Hinv1 Hc1].
  rewrite <- Hw in Hinv1, Hc1.
  destruct (getCertificateStatus c (PickupID req) st) as [[cs|e] st1];
    cbn [snd] in *; [|discriminate].
  destruct (String.eqb (cs_Status cs) "ISSUED"); [discriminate|].
  destruct (String.eqb (cs_Status cs) "FAILED"); [discriminate|].
  destruct (Timeout req =? 0); [discriminate|].
  destruct (time_Now_world st1) as [Ht Hw2].
  destruct (tick_now clockOf Inv Htick _ Hinv1) as (Hinv2 & Hlo & Hhi).
  rewrite <- Ht in Hlo, Hhi. rewrite <- Hw2 in Hinv2, Hhi.
  destruct (time_Now st1) as [t st2]. cbn [fst snd] in *.
  destruct (Z.gtb_spec t (startTime + Timeout req)) as [Hgt|Hle];
    [discriminate|].
  destruct (tick_sleep clockOf Inv Htick pollInterval _ Hinv2)
    as [Hinv3 Hc3].
  assert (Hpi : pollInterval = 2000000000) by reflexivity.
  apply IH.
  - exact Hinv3.
  - cbn [time_Sleep snd world]. lia.
  - cbn [time_Sleep snd world] in *. lia.
Qed.

End Ticking.

(** X4.  On a platform whose clock does not run backwards and whose sleep
    lasts as long as asked, the poll loop of [RetrieveCertificate] is
    bounded: the call returns within [Timeout / 2s + 2] passes of the loop,
    whatever the service answers. *)
Theorem RetrieveCertificate_returns :
  forall (clockOf : World -> Z) (Inv : World -> Prop)
         (fuel : nat) (c : Connector) (req : Request) (st : State),
    TickingClock clockOf Inv ->
    Inv (world st) ->
    (Z.to_nat (Timeout req / pollInterval) + 2 <= fuel)%nat ->
    snd (fst (RetrieveCertificate fuel c req st)) <> None.
Proof.
  intros clockOf Inv fuel c req st Htick Hinv Hfuel.
  rewrite RetrieveCertificate_run.
  destruct (FetchPrivateKey req); [discriminate|].
  pose proof (resolvePickupID_Inv clockOf Inv Htick c req st Hinv) as Hinv1.
  destruct (resolvePickupID c req st) as [[req'|e] st1] eqn:Er;
    [|discriminate].
  pose proof (resolvePickupID_Timeout _ _ _ _ _ Er) as Htime.
  cbn [snd] in Hinv1.
  destruct (time_Now_world st1) as [Ht Hw2].
  destruct (tick_now clockOf Inv Htick _ Hinv1) as (Hinv2 & Hlo & Hhi).
  rewrite <- Ht in Hlo, Hhi. rewrite <- Hw2 in Hinv2, Hhi.
  destruct (time_Now st1) as [startTime st2]. cbn [fst snd] in *.
  assert (Hends : fst (pollStatus fuel c req' startTime st2) <> None).
  { apply (pollStatus_ends clockOf Inv Htick); [exact Hinv2| |lia].
    rewrite Htime.
    assert (Hpi : pollInterval = 2000000000) by reflexivity.
    rewrite Hpi in *.
    destruct (Z.le_gt_cases 0 (Timeout req)) as [Hpos|Hneg].
    - pose proof (Z.div_mod (Timeout req) 2000000000 ltac:(lia)) as Hdm.
      pose proof (Z.mod_pos_bound (Timeout req) 2000000000 ltac:(lia)) as Hm.
      pose proof (Z.div_pos (Timeout req) 2000000000 Hpos ltac:(lia)) as Hq.
      lia.
    - lia. }
  unfold pollAndFetch, bind.
  destruct (pollStatus fuel c req' startTime st2) as [[[|e]|] st3];
    cbn [fst] in Hends.
  - destruct (fetchCertificate c req' st3). discriminate.
  - discriminate.
  - contradiction.
Qed.

(** ** Renewal, step by step *)

Lemma submitRenewal_run :
  forall c renewReq zoneId managedCertificateId st,
    submitRenewal c renewReq zoneId managedCertificateId st
    = if userOrCompanyNil c then
        (Returns (Err (Errorf
           "Must be autheticated to request a certificate" [])), st)
      else
        let (r, st1) :=
          c_request c "POST" (submissionURL c)
            (renewal renewReq zoneId managedCertificateId) [] st in
        match err r with
        | Some e => (Returns (Err e), st1)
        | None =>
            match parseCertificateRequestResult
                    (statusCode r) (status r) (body r) with
            | Err e =>
                (Returns (Err (Errorf "Failed to renew certificate: %s"
                                 [ArgErr e])), st1)
            | Ok cr =>
                match CertificateRequests cr with
                | [] =>
                    (Panics
                       "runtime error: index out of range [0] with length 0",
                     st1)
                | d :: _ => (Returns (Ok (crd_ID d)), st1)
                end
            end
        end.
Proof.
  intros. unfold submitRenewal, submissionURL.
  destruct (userOrCompanyNil c); [reflexivity|].
  unfold bind.
  change (PCertificateRequest
            match rr_CertificateRequest renewReq with
            | Some cr =>
                if 0 <? Z.of_nat (String.length (CSR cr)) then
                  {| cr_ZoneID := zoneId; cr_CSR := CSR cr;
                     cr_ExistingManagedCertificateId := managedCertificateId;
                     cr_ReuseCSR := false |}
                else
                  {| cr_ZoneID := zoneId; cr_CSR := "";
                     cr_ExistingManagedCertificateId := managedCertificateId;
                     cr_ReuseCSR := true |}
            | None =>
                {| cr_ZoneID := zoneId; cr_CSR := "";
                   cr_ExistingManagedCertificateId := managedCertificateId;
                   cr_ReuseCSR := true |}
            end)
    with (renewal renewReq zoneId managedCertificateId).
  destruct (c_request c "POST" _ _ [] st) as [r st1].
  destruct (err r); [reflexivity|].
  destruct (parseCertificateRequestResult _ _ _) as [cr|e]; [|reflexivity].
  destruct (CertificateRequests cr); reflexivity.
Qed.

Lemma RenewCertificate_run :
  forall c renewReq st,
    RenewCertificate c renewReq st
    = let (r1, st1) := renewalRequestId c renewReq st in
      match r1 with
      | Err e => (Returns (Err e), st1)
      | Ok id =>
          let (r2, st2) := getCertificateStatus c id st1 in
          match r2 with
          | Err e =>
              (Returns (Err (Errorf "certificate renew failed: %s"
                               [ArgErr e])), st2)
          | Ok prev =>
              if String.eqb (cs_ManagedCertificateId prev) "" then
                (Returns (Err (Errorf
                   "failed to submit renewal request for certificate: ManagedCertificateId is empty, certificate status is %s"
                   [ArgStr (cs_Status prev)])), st2)
              else if String.eqb (cs_ZoneId prev) "" then
                (Returns (Err (Errorf
                   "failed to submit renewal request for certificate: ZoneId is empty, certificate status is %s"
                   [ArgStr (cs_Status prev)])), st2)
              else
                let (r3, st3) :=
                  getManagedCertificate c (cs_ManagedCertificateId prev) st2 in
                match r3 with
                | Err e =>
                    (Returns (Err (Errorf "failed to renew certificate: %s"
                                     [ArgErr e])), st3)
                | Ok mc =>
                    if String.eqb (mc_LatestCertificateRequestId mc) id then
                      submitRenewal c renewReq (cs_ZoneId prev)
                        (cs_ManagedCertificateId prev) st3
                    else
                      (Returns (Err (Errorf (staleRenewalFormat renewReq)
                         [ArgStr id;
                          ArgStr (cs_ManagedCertificateId prev);
                          ArgStr (mc_LatestCertificateRequestId mc)])), st3)
                end
          end
      end.
Proof.
  intros. unfold RenewCertificate, bind, ret.
  destruct (renewalRequestId c renewReq st) as [[id|e] st1]; [|reflexivity].
  destruct (getCertificateStatus c id st1) as [[prev|e] st2]; [|reflexivity].
  destruct (String.eqb (cs_ManagedCertificateId prev) ""); [reflexivity|].
  destruct (String.eqb (cs_ZoneId prev) ""); [reflexivity|].
  destruct (getManagedCertificate c (cs_ManagedCertificateId prev) st2)
    as [[mc|e] st3]; [|reflexivity].
  destruct (String.eqb (mc_LatestCertificateRequestId mc) id); reflexivity.
Qed.

(** The renewal either posts nothing, or has passed every check and posts
    last. *)
Lemma RenewCertificate_added :
  forall c renewReq st res st',
    RenewCertificate c renewReq st = (res, st') ->
    exists evs,
      log st' = log st ++ evs /\
      ((existsb isSubmission evs = false /\
        (forall id, res <> Returns (Ok id)) /\
        (forall msg, res <> Panics msg))
       \/
       exists pre id prev mc st1 st2 st3,
         evs = pre ++ [EvRequest "POST" (submissionURL c)
                         (renewal renewReq (cs_ZoneId prev)
                            (cs_ManagedCertificateId prev))]
         /\ existsb isSubmission pre = false
         /\ renewalRequestId c renewReq st = (Ok id, st1)
         /\ getCertificateStatus c id st1 = (Ok prev, st2)
         /\ getManagedCertificate c (cs_ManagedCertificateId prev) st2
            = (Ok mc, st3)
         /\ mc_LatestCertificateRequestId mc = id
         /\ cs_ManagedCertificateId prev <> ""
         /\ cs_ZoneId prev <> ""
         /\ userOrCompanyNil c = false).
Proof.
  intros c renewReq st res st' H. rewrite RenewCertificate_run in H.
  destruct (renewalRequestId_log c renewReq st) as (evs1 & L1 & Q1).
  destruct (renewalRequestId c renewReq st) as [[id|e] st1] eqn:E1;
    cbn [snd] in L1.
  2:{ inversion H; subst. exists evs1. split; [exact L1|]. left.
      repeat split; try exact Q1; discriminate. }
  pose proof (getCertificateStatus_log c id st1) as L2.
  destruct (getCertificateStatus c id st1) as [[prev|e] st2] eqn:E2;
    cbn [snd] in L2.
  2:{ inversion H; subst. exists (evs1 ++ [EvRequest "GET" (statusURL c id) PNil]).
      split; [now rewrite L2, L1, <- app_assoc|]. left.
      rewrite existsb_app, Q1. repeat split; discriminate. }
  assert (Q2 : existsb isSubmission
                 (evs1 ++ [EvRequest "GET" (statusURL c id) PNil]) = false)
    by (rewrite existsb_app, Q1; reflexivity).
  assert (L2' : log st2
                = log st ++ (evs1 ++ [EvRequest "GET" (statusURL c id) PNil]))
    by (now rewrite L2, L1, <- app_assoc).
  destruct (String.eqb_spec (cs_ManagedCertificateId prev) "") as [|Hmc].
  { inversion H; subst. eexists. split; [exact L2'|]. left.
    repeat split; try exact Q2; discriminate. }
  destruct (String.eqb_spec (cs_ZoneId prev) "") as [|Hzone].
  { inversion H; subst. eexists. split; [exact L2'|]. left.
    repeat split; try exact Q2; discriminate. }
  pose proof (getManagedCertificate_log c (cs_ManagedCertificateId prev) st2)
    as L3.
  destruct (getManagedCertificate c (cs_ManagedCertificateId prev) st2)
    as [[mc|e] st3] eqn:E3; cbn [snd] in L3.
  2:{ inversion H; subst. eexists. split.
      { rewrite L3, L2', <- app_assoc. reflexivity. }
      left. rewrite existsb_app, Q2. repeat split; discriminate. }
  set (pre := (evs1 ++ [EvRequest "GET" (statusURL c id) PNil])
              ++ [EvRequest "GET"
                    (managedCertificateURL c (cs_ManagedCertificateId prev))
                    PNil]).
  assert (L3' : log st3 = log st ++ pre)
    by (unfold pre; now rewrite L3, L2', <- app_assoc).
  assert (Q3 : existsb isSubmission pre = false)
    by (unfold pre; rewrite existsb_app, Q2; reflexivity).
  destruct (String.eqb_spec (mc_LatestCertificateRequestId mc) id) as [Hl|Hl].
  2:{ inversion H; subst. exists pre. split; [exact L3'|]. left.
      repeat split; try exact Q3; discriminate. }
  rewrite submitRenewal_run in H.
  destruct (userOrCompanyNil c) eqn:Hauth.
  { inversion H; subst. exists pre. split; [exact L3'|]. left.
    repeat split; try exact Q3; discriminate. }
  pose proof (c_request_log c "POST" (submissionURL c)
                (renewal renewReq (cs_ZoneId prev)
                   (cs_ManagedCertificateId prev)) [] st3) as L4.
  destruct (c_request c "POST" _ _ [] st3) as [r st4]. cbn [snd] in L4.
  assert (st' = st4) as ->.
  { destruct (err r); [now inversion H|].
    destruct (parseCertificateRequestResult _ _ _) as [cr|e];
      [|now inversion H].
    destruct (CertificateRequests cr); now inversion H. }
  eexists. split.
  { rewrite L4, L3', <- app_assoc. reflexivity. }
  right. exists pre, id, prev, mc, st1, st2, st3. repeat split; auto.
Qed.

(** X5.  [RenewCertificate] posts a certificate request only after it has
    resolved the request id, read a status with a managed-certificate id
    and a zone id, found that the latest request of that managed
    certificate is the resolved one, and seen an authenticated connector;
    the post is then its last request and its only certificate request.
    In every other run it posts no certificate request and returns no
    request id. *)
Theorem RenewCertificate_posts_last :
  forall (c : Connector) (renewReq : RenewalRequest) (st : State),
    exists evs,
      log (snd (RenewCertificate c renewReq st)) = log st ++ evs /\
      ((existsb isSubmission evs = false /\
        match fst (RenewCertificate c renewReq st) with
        | Returns (Err _) => True
        | _ => False
        end)
       \/
       exists pre id prev mc st1 st2 st3,
         evs = pre ++ [EvRequest "POST" (submissionURL c)
                         (renewal renewReq (cs_ZoneId prev)
                            (cs_ManagedCertificateId prev))]
         /\ existsb isSubmission pre = false
         /\ renewalRequestId c renewReq st = (Ok id, st1)
         /\ getCertificateStatus c id st1 = (Ok prev, st2)
         /\ getManagedCertificate c (cs_ManagedCertificateId prev) st2
            = (Ok mc, st3)
         /\ mc_LatestCertificateRequestId mc = id
         /\ cs_ManagedCertificateId prev <> ""
         /\ cs_ZoneId prev <> ""
         /\ userOrCompanyNil c = false).
Proof.
  intros c renewReq st.
  destruct (RenewCertificate c renewReq st) as [res st'] eqn:E.
  destruct (RenewCertificate_added _ _ _ _ _ E) as (evs & L & H).
  exists evs. split; [exact L|].
  destruct H as [(Q & Hok & Hpanic)|H]; [left|right; exact H].
  split; [exact Q|]. cbn [fst].
  destruct res as [[id|e]|msg]; auto.
  - exact (Hok id eq_refl).
  - exact (Hpanic msg eq_refl).
Qed.

Lemma renewal_payload :
  forall renewReq zoneId managedCertificateId,
    exists r,
      renewal renewReq zoneId managedCertificateId = PCertificateRequest r
      /\ cr_ZoneID r = zoneId
      /\ cr_ExistingManagedCertificateId r = managedCertificateId
      /\ cr_ReuseCSR r = String.eqb (cr_CSR r) "".
Proof.
  intros. unfold renewal.
  destruct (rr_CertificateRequest renewReq) as [cr|].
  - destruct (CSR cr) as [|ch rest] eqn:Ecsr.
    + eexists. cbn. repeat split.
    + eexists. cbn [String.length]. rewrite Nat2Z.inj_succ.
      destruct (Z.ltb_spec 0 (Z.succ (Z.of_nat (String.length rest))));
        [|lia].
      repeat split.
  - eexists. repeat split.
Qed.

(** X6.  Every certificate request that [RenewCertificate] sends is a POST
    to the certificate-requests resource that names a managed certificate
    and a zone, both non-empty, and asks to reuse the previous CSR exactly
    when it carries no CSR of its own. *)
Theorem renewal_request_is_well_formed :
  forall (c : Connector) (renewReq : RenewalRequest) (st : State)
         (evs : list Event) (method url : string) (r : certificateRequest),
    log (snd (RenewCertificate c renewReq st)) = log st ++ evs ->
    In (EvRequest method url (PCertificateRequest r)) evs ->
    method = "POST"
    /\ url = getURL c urlResourceCertificateRequests
    /\ cr_ExistingManagedCertificateId r <> ""
    /\ cr_ZoneID r <> ""
    /\ cr_ReuseCSR r = String.eqb (cr_CSR r) "".
Proof.
  intros c renewReq st evs method url r Hlog Hin.
  destruct (RenewCertificate c renewReq st) as [res st'] eqn:E.
  destruct (RenewCertificate_added _ _ _ _ _ E) as (evs' & L & H).
  cbn [snd] in Hlog. rewrite L in Hlog. apply app_inv_head in Hlog.
  subst evs'.
  assert (Hsub : forall l, existsb isSubmission l = false ->
                           ~ In (EvRequest method url (PCertificateRequest r)) l).
  { intros l Hq Hl.
    assert (existsb isSubmission l = true) as Ht
      by (apply existsb_exists; eexists; split; [exact Hl|reflexivity]).
    congruence. }
  destruct H as [(Q & _)|
                 (pre & id & prev & mc & st1 & st2 & st3 & -> & Q & _ & _ & _
                  & _ & Hmc & Hzone & _)].
  - exfalso. exact (Hsub _ Q Hin).
  - apply in_app_or in Hin. destruct Hin as [Hin|[Hin|[]]].
    + exfalso. exact (Hsub _ Q Hin).
    + destruct (renewal_payload renewReq (cs_ZoneId prev)
                  (cs_ManagedCertificateId prev))
        as (r' & Hr & Hz & Hm & Hreuse).
      rewrite Hr in Hin. inversion Hin; subst.
      repeat split; auto; congruence.
Qed.

(** X7.  A renewal request with a thumbprint is resolved by the
    fingerprint search alone: its [CertificateDN] plays no part, and the
    call runs exactly as with an empty one. *)
Theorem thumbprint_takes_precedence :
  forall (c : Connector) (renewReq : RenewalRequest) (st : State),
    rr_Thumbprint renewReq <> "" ->
    RenewCertificate c renewReq st
    = RenewCertificate c (withoutDN renewReq) st.
Proof.
  intros c renewReq st Hfp. apply String.eqb_neq in Hfp.
  assert (Hid : renewalRequestId c renewReq st
                = renewalRequestId c (withoutDN renewReq) st).
  { unfold renewalRequestId, withoutDN. cbn [rr_Thumbprint rr_CertificateDN].
    now rewrite Hfp. }
  rewrite !RenewCertificate_run, <- Hid.
  destruct (renewalRequestId c renewReq st) as [[id|e] st1]; reflexivity.
Qed.

(** X8.  The first two steps of a renewal.  Without thumbprint and without
    [CertificateDN] the call fails before any request.  With a
    [CertificateDN] only, that is the request id, found without a search.
    And a status without managed-certificate id, or else without zone id,
    fails the call right after the status GET: the managed certificate is
    not looked up and nothing is posted. *)
Theorem renewal_lookup_guards :
  forall (c : Connector) (renewReq : RenewalRequest) (st st1 st2 : State)
         (id : string) (prev : certificateStatus),
    (rr_Thumbprint renewReq = "" ->
       renewalRequestId c renewReq st
       = (if String.eqb (rr_CertificateDN renewReq) ""
          then Err (Errorf
                 "failed to create renewal request: CertificateDN or Thumbprint required"
                 [])
          else Ok (rr_CertificateDN renewReq), st))
    /\ (renewalRequestId c renewReq st = (Ok id, st1) ->
        getCertificateStatus c id st1 = (Ok prev, st2) ->
        cs_ManagedCertificateId prev = "" \/ cs_ZoneId prev = "" ->
        RenewCertificate c renewReq st
        = (Returns (Err (Errorf
             (if String.eqb (cs_ManagedCertificateId prev) ""
              then "failed to submit renewal request for certificate: ManagedCertificateId is empty, certificate status is %s"
              else "failed to submit renewal request for certificate: ZoneId is empty, certificate status is %s")
             [ArgStr (cs_Status prev)])), st2)
        /\ log st2 = log st1 ++ [pollEvent c id]).
Proof.
  intros c renewReq st st1 st2 id prev. split.
  - intros Hfp. unfold renewalRequestId. rewrite Hfp. cbn [String.eqb negb].
    destruct (String.eqb (rr_CertificateDN renewReq) ""); reflexivity.
  - intros H1 H2 Hempty. split.
    + rewrite RenewCertificate_run, H1, H2.
      destruct (String.eqb_spec (cs_ManagedCertificateId prev) "");
        [reflexivity|].
      destruct Hempty as [|Hz]; [contradiction|].
      now rewrite Hz.
    + exact (getCertificateStatus_log' _ _ _ _ _ H2).
Qed.

(** ** Without authentication *)

Lemma pollAndFetch_not_authenticated :
  forall fuel c req startTime st pc,
    userOrCompanyNil c = true ->
    fst (pollAndFetch fuel c req startTime st) <> Some (Ok pc).
Proof.
  intros fuel c req startTime st pc Hnil. unfold pollAndFetch, bind.
  destruct (pollStatus fuel c req startTime st) as [[[|e]|] st1];
    try discriminate.
  unfold fetchCertificate. rewrite Hnil. discriminate.
Qed.

(** X9.  A connector without user, or whose user has no company, obtains
    nothing: [RetrieveCertificate] never returns a certificate, and
    [RenewCertificate] returns an error, never a request id, and never
    posts a certificate request. *)
Theorem not_authenticated_obtains_nothing :
  forall (fuel : nat) (c : Connector) (req : Request)
         (renewReq : RenewalRequest) (st : State),
    userOrCompanyNil c = true ->
    (forall pc, snd (fst (RetrieveCertificate fuel c req st)) <> Some (Ok pc))
    /\ (exists e, fst (RenewCertificate c renewReq st) = Returns (Err e))
    /\ exists evs,
         log (snd (RenewCertificate c renewReq st)) = log st ++ evs
         /\ existsb isSubmission evs = false.
Proof.
  intros fuel c req renewReq st Hnil. split.
  - intros pc. rewrite RetrieveCertificate_run.
    destruct (FetchPrivateKey req); [discriminate|].
    destruct (resolvePickupID c req st) as [[req'|e] st1]; [|discriminate].
    destruct (time_Now st1) as [startTime st2].
    pose proof (pollAndFetch_not_authenticated fuel c req' startTime st2 pc
                  Hnil) as H.
    destruct (pollAndFetch fuel c req' startTime st2) as [r st3].
    cbn [fst snd] in *. exact H.
  - destruct (RenewCertificate c renewReq st) as [res st'] eqn:E.
    destruct (RenewCertificate_added _ _ _ _ _ E) as (evs & L & H).
    destruct H as [(Q & Hok & Hpanic)|
                   (pre & id & prev & mc & st1 & st2 & st3 & _ & _ & _ & _ & _
                    & _ & _ & _ & Hauth)]; [|congruence].
    split.
    + cbn [fst]. destruct res as [[id|e]|msg].
      * exfalso. exact (Hok id eq_refl).
      * now exists e.
      * exfalso. exact (Hpanic msg eq_refl).
    + exists evs. split; [exact L|exact Q].
Qed.

(** ** What the lookups return *)

(** X10.  [getCertificateStatus] returns a status exactly when the service
    answered 200 and the body parses as a status.  The error value of the
    transport plays no part: every error the function returns is one it
    built itself with [fmt.Errorf]. *)
Theorem getCertificateStatus_result :
  forall (c : Connector) (requestID : string) (st : State),
    (forall cs,
        fst (getCertificateStatus c requestID st) = Ok cs <->
        statusCode (fst (request c "GET" (statusURL c requestID) PNil []
                           (world st))) = 200
        /\ json_Unmarshal_certificateStatus
             (body (fst (request c "GET" (statusURL c requestID) PNil []
                           (world st)))) = Ok cs)
    /\ (forall e,
           fst (getCertificateStatus c requestID st) = Err e ->
           exists msg, e = errorString msg).
Proof.
  intros c requestID st. unfold getCertificateStatus.
  rewrite bind_surj, c_request_run. cbn [fst snd].
  fold (statusURL c requestID). change http_StatusOK with 200.
  destruct (Z.eqb_spec
              (statusCode (fst (request c "GET" (statusURL c requestID) PNil []
                                  (world st)))) 200) as [Hc|Hc].
  - destruct (json_Unmarshal_certificateStatus _) as [cs'|e'] eqn:Ej;
      cbn [ret fst]; split.
    + intros cs. split; [intros [= ->]; now split|intros [_ [= ->]]; reflexivity].
    + discriminate.
    + intros cs. split; [discriminate|intros [_ H]; discriminate].
    + intros e [= <-]. eexists. reflexivity.
  - split.
    + intros cs. split; [|intros [H _]; contradiction].
      destruct (parseResponseErrors _); discriminate.
    + intros e. destruct (parseResponseErrors _); intros [= <-];
        eexists; reflexivity.
Qed.

(** ** Transport errors *)

Lemma getZoneByTag_transport_error :
  forall c tag st u e,
    user c = Some u ->
    err (fst (c_request c "GET" (zoneByTagURL c tag) PNil [] st)) = Some e ->
    getZoneByTag c tag st
    = (Err e, snd (c_request c "GET" (zoneByTagURL c tag) PNil [] st)).
Proof.
  intros c tag st u e Hu He. unfold getZoneByTag. rewrite Hu, bind_surj.
  fold (zoneByTagURL c tag). now rewrite He.
Qed.

(** X11.  A transport error ends the call with that very error and without
    a further request: in [RequestCertificate], an error of the zone lookup
    is returned before anything is posted; in [RetrieveCertificate], an
    error of the GET of the certificate is returned as it is. *)
Theorem transport_error_ends_the_call :
  forall (fuel : nat) (c : Connector) (req : Request) (zone : string)
         (startTime : Z) (st st1 : State) (e : error)
         (certStatus : certificateStatus),
    userOrCompanyNil c = false ->
    (CsrOrigin req <> ServiceGeneratedCSR ->
     err (fst (request c "GET"
                 (zoneByTagURL c (if String.eqb zone "" then c_zone c else zone))
                 PNil [] (world st))) = Some e ->
     fst (RequestCertificate c req zone st) = (req, Returns (Err e))
     /\ log (snd (RequestCertificate c req zone st))
        = log st
          ++ [EvRequest "GET"
                (zoneByTagURL c (if String.eqb zone "" then c_zone c else zone))
                PNil])
    /\ (getCertificateStatus c (PickupID req) st = (Ok certStatus, st1) ->
        cs_Status certStatus = "ISSUED" ->
        err (fst (request c "GET" (certificateURL c req) PNil [] (world st1)))
        = Some e ->
        fst (pollAndFetch (S fuel) c req startTime st) = Some (Err e)
        /\ log (snd (pollAndFetch (S fuel) c req startTime st))
           = log st ++ [pollEvent c (PickupID req);
                        EvRequest "GET" (certificateURL c req) PNil]).
Proof.
  intros fuel c req zone startTime st st1 e certStatus Hauth. split.
  - intros Horigin He.
    rewrite (RequestCertificate_guarded _ _ _ _ Horigin Hauth). cbv zeta.
    destruct (userOrCompanyNil_user _ Hauth) as [u Hu].
    rewrite (getZoneByTag_transport_error c _ st u e Hu)
      by (rewrite c_request_run; exact He).
    cbn [fst snd]. split; [reflexivity|apply c_request_log].
  - intros Hfetch Hissued He.
    rewrite pollAndFetch_pass, Hfetch, Hissued. cbn [String.eqb Ascii.eqb Bool.eqb].
    pose proof (fetchCertificate_added c req st1) as Lf. unfold added in Lf.
    rewrite Hauth in Lf.
    assert (Hr : fst (fetchCertificate c req st1) = Err e).
    { unfold fetchCertificate. rewrite Hauth.
      replace (if ChainOption req =? ChainOptionRootFirst
               then Sprintf
                      (Sprintf (getURL c urlResourceCertificateRetrieve)
                         [ArgStr (PickupID req)]
                       +++ "?chainOrder=%s&format=PEM")
                      [ArgStr condorChainOptionRootFirst]
               else Sprintf
                      (Sprintf (getURL c urlResourceCertificateRetrieve)
                         [ArgStr (PickupID req)]
                       +++ "?chainOrder=%s&format=PEM")
                      [ArgStr condorChainOptionRootLast])
        with (certificateURL c req)
        by (unfold certificateURL;
            destruct (ChainOption req =? ChainOptionRootFirst); reflexivity).
      rewrite bind_surj, c_request_run. cbn [fst snd]. now rewrite He. }
    destruct (fetchCertificate c req st1) as [r st2]. cbn [fst snd] in *.
    subst r. split; [reflexivity|].
    rewrite Lf, (getCertificateStatus_log' _ _ _ _ _ Hfetch), <- app_assoc.
    reflexivity.
Qed.

(** ** What a fingerprint resolves to *)

Lemma sameIdThroughout_uniform :
  forall certs x current,
    (forall a, In a (requestIds certs) -> a = x) ->
    current = "" \/ current = x ->
    sameIdThroughout current certs = true.
Proof.
  induction certs as [|c certs IH]; intros x current Hall Hcur;
    [reflexivity|].
  cbn [sameIdThroughout].
  assert (Hc : CertificateRequestId c = x) by (apply Hall; now left).
  rewrite (IH x (CertificateRequestId c)).
  - rewrite andb_true_r. destruct Hcur as [->| ->].
    + reflexivity.
    + rewrite Hc, String.eqb_refl. apply orb_true_r.
  - intros a Ha. apply Hall. now right.
  - now right.
Qed.

Lemma last_uniform :
  forall (l : list string) x d,
    l <> [] -> (forall a, In a l -> a = x) -> last l d = x.
Proof.
  induction l as [|a l IH]; intros x d Hne Hall; [contradiction|].
  destruct l as [|b l].
  - cbn. apply Hall. now left.
  - change (last (b :: l) d = x). apply IH; [discriminate|].
    intros y Hy. apply Hall. now right.
Qed.

Lemma sameIdThroughout_last :
  forall certs current a,
    sameIdThroughout current certs = true ->
    In a (requestIds certs) -> a <> "" ->
    a = last (requestIds certs) current.
Proof.
  induction certs as [|c certs IH]; intros current a H Hin Hne;
    [destruct Hin|].
  cbn [sameIdThroughout] in H. apply andb_prop in H as [_ H2].
  cbn [requestIds map]. fold (requestIds certs).
  destruct certs as [|c' certs'].
  - destruct Hin as [<-|[]]. reflexivity.
  - change (a = last (requestIds (c' :: certs')) current).
    assert (Hd : last (requestIds (c' :: certs')) current
                 = last (requestIds (c' :: certs')) (CertificateRequestId c))
      by (cbn [requestIds map]; apply last_cons_default).
    rewrite Hd.
    destruct Hin as [<-|Hin].
    + (* the first hit has a non-empty id: all the others have it *)
      symmetry. apply last_uniform; [discriminate|].
      intros y Hy. exact (sameIdThroughout_all _ _ H2 Hne y Hy).
    + exact (IH _ a H2 Hin Hne).
Qed.

(** X12.  What a fingerprint resolves to, when the search succeeds.  If
    [RenewCertificate] resolves it to a request id, that is the id of the
    last hit, and every hit that carries an id carries that one.  And hits
    that all carry the same id never count as ambiguous: the fingerprint
    resolves to that id, and [RetrieveCertificate] takes it as the pickup
    id. *)
Theorem fingerprint_resolution :
  forall (c : Connector) (req : Request) (renewReq : RenewalRequest)
         (st st1 : State) (sr : CertificateSearchResponse),
    PickupID req = "" ->
    Thumbprint req <> "" ->
    rr_Thumbprint renewReq = Thumbprint req ->
    searchCertificatesByFingerprint c (Thumbprint req) st = (Ok sr, st1) ->
    (forall id,
        renewalRequestId c renewReq st = (Ok id, st1) ->
        id = last (requestIds (Certificates sr)) ""
        /\ forall a, In a (requestIds (Certificates sr)) -> a <> "" -> a = id)
    /\ (forall x,
           Certificates sr <> [] ->
           (forall a, In a (requestIds (Certificates sr)) -> a = x) ->
           renewalRequestId c renewReq st = (Ok x, st1)
           /\ resolvePickupID c req st = (Ok (set_PickupID req x), st1)).
Proof.
  intros c req renewReq st st1 sr Hid Hfp Hrr Hsearch.
  pose proof (resolvePickupID_by_fingerprint _ _ _ _ _ Hid Hfp Hsearch) as H1.
  assert (Hfp' : rr_Thumbprint renewReq <> "") by now rewrite Hrr.
  pose proof Hsearch as Hsearch'. rewrite <- Hrr in Hsearch'.
  pose proof (renewalRequestId_by_fingerprint _ _ _ _ _ Hfp' Hsearch') as H2.
  split.
  - intros id Hres. rewrite H2 in Hres.
    destruct (Certificates sr) as [|x certs] eqn:Ec; [discriminate|].
    destruct (sameIdThroughout "" (x :: certs)) eqn:Es; [|discriminate].
    inversion Hres; subst. split; [reflexivity|].
    intros a Ha Hne. exact (sameIdThroughout_last _ _ _ Es Ha Hne).
  - intros x Hne Hall.
    assert (Es : sameIdThroughout "" (Certificates sr) = true)
      by (apply (sameIdThroughout_uniform _ x); [exact Hall|now left]).
    assert (El : last (requestIds (Certificates sr)) "" = x).
    { apply last_uniform; [|exact Hall].
      destruct (Certificates sr); [contradiction|discriminate]. }
    rewrite H1, H2, Es, El.
    destruct (Certificates sr); [contradiction|]. split; reflexivity.
Qed.

(** ** The trace of a submission *)


(** ** Reading a zone *)

Lemma fetchPolicyFragments_all :
  forall c ids st,
    snd (fst (fetchPolicyFragments c ids st)) = None ->
    log (snd (fetchPolicyFragments c ids st))
    = log st ++ map (fun id => EvRequest "GET" (policyURL c id) PNil) ids
    /\ length (fst (fst (fetchPolicyFragments c ids st))) = length ids.
Proof.
  intros c ids. induction ids as [|id ids IH]; intros st Hnone.
  - cbn. now rewrite app_nil_r.
  - cbn [fetchPolicyFragments] in *. rewrite bind_surj in *.
    pose proof (c_request_log c "GET" (policyURL c id) PNil [] st) as L.
    destruct (parseCertificatePolicyResult _ _ _) as [p|e]; [|discriminate].
    rewrite bind_surj in *. cbn [ret fst snd] in *.
    destruct (IH _ Hnone) as [L2 Hlen].
    rewrite L2, L, <- app_assoc. cbn [map app length]. now rewrite Hlen.
Qed.

Lemma getPoliciesByID_run :
  forall c ids st u,
    user c = Some u ->
    getPoliciesByID c ids st
    = (match snd (fst (fetchPolicyFragments c ids st)) with
       | Some e => Err e
       | None => Ok (mergedPolicy (fst (fst (fetchPolicyFragments c ids st))))
       end, snd (fetchPolicyFragments c ids st)).
Proof.
  intros c ids st u Hu. unfold getPoliciesByID.
  now rewrite Hu, rangePolicyIDs_fetch, fold_mergePolicy.
Qed.

Lemma ReadZoneConfiguration_run :
  forall c tag st,
    ReadZoneConfiguration c tag st
    = let (rz, st1) := getZoneByTag c tag st in
      match rz with
      | Err e => (Err e, st1)
      | Ok z =>
          let (rp, st2) :=
            getPoliciesByID c
              [z_DefaultCertificateIdentityPolicy z;
               z_DefaultCertificateUsePolicy z] st1 in
          (match rp with
           | Err e => Err e
           | Ok p => Ok (getZoneConfiguration z (user c) p)
           end, st2)
      end.
Proof.
  intros. unfold ReadZoneConfiguration, bind, ret.
  destruct (getZoneByTag c tag st) as [[z|e] st1]; [|reflexivity].
  destruct (getPoliciesByID c _ st1) as [[p|e] st2]; reflexivity.
Qed.

(** X14.  [ReadZoneConfiguration] looks up the zone, then fetches its
    identity policy, then its use policy, and stops at the first of the
    three that fails, returning that error alone.  When all succeed, the
    configuration is built from the zone, the user and the merge of the two
    fragments, after exactly these three GETs.  [ReadPolicyConfiguration]
    is the same run, returning the policy of the configuration.  A
    connector without user makes neither a request nor a result. *)
Theorem ReadZoneConfiguration_composes :
  forall (c : Connector) (tag : string) (st : State),
    match user c with
    | None =>
        ReadZoneConfiguration c tag st
        = (Err (Errorf "Must be autheticated to read the zone configuration"
                  []), st)
    | Some _ =>
        match getZoneByTag c tag st with
        | (Err e, st1) => ReadZoneConfiguration c tag st = (Err e, st1)
        | (Ok z, st1) =>
            let ids := [z_DefaultCertificateIdentityPolicy z;
                        z_DefaultCertificateUsePolicy z] in
            match fetchPolicyFragments c ids st1 with
            | (_, Some e, st2) =>
                ReadZoneConfiguration c tag st = (Err e, st2)
            | (ps, None, st2) =>
                ReadZoneConfiguration c tag st
                = (Ok (getZoneConfiguration z (user c) (mergedPolicy ps)), st2)
                /\ log st2
                   = log st
                     ++ [EvRequest "GET" (zoneByTagURL c tag) PNil;
                         EvRequest "GET"
                           (policyURL c (z_DefaultCertificateIdentityPolicy z))
                           PNil;
                         EvRequest "GET"
                           (policyURL c (z_DefaultCertificateUsePolicy z))
                           PNil]
            end
        end
    end
    /\ ReadPolicyConfiguration c tag st
       = (match fst (ReadZoneConfiguration c tag st) with
          | Err e => Err e
          | Ok config => Ok (zc_Policy config)
          end, snd (ReadZoneConfiguration c tag st)).
Proof.
  intros c tag st. split.
  - rewrite ReadZoneConfiguration_run.
    destruct (user c) as [u|] eqn:Hu.
    + pose proof (getZoneByTag_log c tag st u Hu) as L.
      destruct (getZoneByTag c tag st) as [[z|e] st1]; [|reflexivity].
      cbn [snd] in L. cbv zeta.
      rewrite (getPoliciesByID_run _ _ _ u Hu).
      pose proof (fetchPolicyFragments_all c
                    [z_DefaultCertificateIdentityPolicy z;
                     z_DefaultCertificateUsePolicy z] st1) as La.
      destruct (fetchPolicyFragments c _ st1) as [[ps [e|]] st2];
        cbn [fst snd] in *; [reflexivity|].
      split; [reflexivity|].
      destruct (La eq_refl) as [L2 _]. rewrite L2, L, <- app_assoc.
      reflexivity.
    + unfold getZoneByTag. now rewrite Hu.
  - unfold ReadPolicyConfiguration. rewrite bind_surj.
    destruct (fst (ReadZoneConfiguration c tag st)); reflexivity.
Qed.

(** ** Authentication *)


(** ** The order of the fragments *)

(** X16.  The merge of [getPoliciesByID] does not depend on the order in
    which an identity fragment and a use fragment arrive, and of two
    fragments of the same type the later one wins. *)
Theorem mergePolicy_order :
  forall (policy p q : certificatePolicy),
    (CertificatePolicyType p = certificatePolicyTypeIdentity ->
     CertificatePolicyType q = certificatePolicyTypeUse ->
     fold_left mergePolicy [p; q] policy = fold_left mergePolicy [q; p] policy)
    /\ (CertificatePolicyType p = CertificatePolicyType q ->
        fold_left mergePolicy [p; q] policy = fold_left mergePolicy [q] policy).
Proof.
  intros policy p q. split.
  - intros Hp Hq. cbn [fold_left]. unfold mergePolicy. rewrite Hp, Hq.
    rewrite String.eqb_refl.
    destruct (String.eqb_spec certificatePolicyTypeUse
                certificatePolicyTypeIdentity) as [E|_].
    { exfalso. apply certificatePolicyTypes_differ. now symmetry. }
    rewrite String.eqb_refl. reflexivity.
  - intros Hpq. cbn [fold_left]. unfold mergePolicy. rewrite Hpq.
    destruct (String.eqb (CertificatePolicyType q)
                certificatePolicyTypeIdentity); [reflexivity|].
    destruct (String.eqb (CertificatePolicyType q)
                certificatePolicyTypeUse); reflexivity.
Qed.

End MoreProperties.

(** * Runs on the scripted platform *)

Section Runs.
Import Scripted.
#[local] Existing Instance Scripted.types.
#[local] Existing Instance Scripted.platform.


(** A failed request, polled with a timeout of thirty seconds. *)
Lemma C2_failed_poll_witness :
  pollAndFetch 3 connector (withTimeout request0 (30 * second)) 0
    (start [failed; issued] false)
  = (Some (Err (errorString
       "Failed to retrieve certificate. Status: &{FAILED Z1 M1}")),
     {| world := {| clock := second; latency := second; replies := [issued];
                    cancelRequested := false |};
        log := [EvRequest "GET"
                  "https://api.venafi.cloud/v1/certificaterequests/R1"
                  PNil] |}).
Proof.
  pose proof (C2_failed_poll 2 connector
                (withTimeout request0 (30 * second)) 0
                (start [failed; issued] false) _ _ eq_refl eq_refl) as [H _].
  rewrite H. reflexivity.
Defined.




(** The same SHA-1 fingerprint written with colons in lower case and with
    dots in upper case. *)
Lemma C5_fingerprint_normal_form_witness :
  searchCertificatesByFingerprint connector "ab:cd:ef"
    (start [reply 200 "200 OK" (Some "R1")] false)
  = searchCertificatesByFingerprint connector "AB.CD.EF"
      (start [reply 200 "200 OK" (Some "R1")] false).
Proof.
  exact (proj1 (C5_fingerprint_normal_form connector "ab:cd:ef" "AB.CD.EF"
                  (start [reply 200 "200 OK" (Some "R1")] false) eq_refl)).
Defined.



(** A service-generated CSR, and a connector that has not authenticated. *)
Lemma C8_request_guards_witness :
  RequestCertificate connector serviceGenerated "Z" (start [] false)
  = ((serviceGenerated,
      Returns (Err (errorString
        "service generated CSR is not supported by Saas service"))),
     start [] false)
  /\ RequestCertificate anonymous request0 "Z" (start [] false)
     = ((request0,
         Returns (Err (errorString
           "Must be autheticated to request a certificate"))),
        start [] false).
Proof.
  split.
  - destruct (C8_request_guards connector serviceGenerated "Z"
                (start [] false)) as (_ & H & _).
    exact (H eq_refl).
  - destruct (C8_request_guards anonymous request0 "Z" (start [] false))
      as (_ & _ & H & _).
    assert (Horigin : 0 <> 1) by discriminate.
    exact (H Horigin eq_refl).
Defined.

(** The same run with and without a cancellation requested by the host. *)
Lemma C9_no_cancellation_witness :
  fst (RetrieveCertificate 5 connector (withTimeout request0 (30 * second))
         (start issuedLater true))
  = fst (RetrieveCertificate 5 connector (withTimeout request0 (30 * second))
           (start issuedLater false)).
Proof.
  assert (HR : Indistinguishable sameButCancel).
  { split.
    - intros c method url data auth [c1 l1 r1 x1] [c2 l2 r2 x2] (Hc & Hl & Hr).
      cbn in Hc, Hl, Hr. subst c2 l2 r2. cbn. unfold transport. cbn.
      destruct r1; cbn; repeat split.
    - intros [c1 l1 r1 x1] [c2 l2 r2 x2] (Hc & Hl & Hr).
      cbn in Hc, Hl, Hr. subst c2 l2 r2. cbn. repeat split.
    - intros d [c1 l1 r1 x1] [c2 l2 r2 x2] (Hc & Hl & Hr).
      cbn in Hc, Hl, Hr. subst c2 l2 r2. cbn. repeat split. }
  assert (Hw : sameButCancel (world (start issuedLater true))
                 (world (start issuedLater false))).
  { split; [reflexivity|]. split; reflexivity. }
  exact (proj1 (C9_no_cancellation sameButCancel 5 connector
                  (withTimeout request0 (30 * second))
                  (start issuedLater true) (start issuedLater false)
                  HR Hw eq_refl)).
Defined.

(** Cancellation is requested before the call, the request stays pending
    and the timeout is three seconds: the call polls, sleeps two seconds,
    polls again and reports the timeout. *)
Lemma C9_counterexample :
  cancelRequested (world (start [pending; pending; pending] true)) = true
  /\ RetrieveCertificate 5 connector (withTimeout request0 (3 * second))
       (start [pending; pending; pending] true)
     = ((withTimeout request0 (3 * second),
         Some (Err (ErrRetrieveCertificateTimeout "R1"))),
        {| world := {| clock := 4 * second; latency := second;
                       replies := [pending]; cancelRequested := true |};
           log := [EvRequest "GET"
                     "https://api.venafi.cloud/v1/certificaterequests/R1"
                     PNil;
                   EvSleep (2 * second);
                   EvRequest "GET"
                     "https://api.venafi.cloud/v1/certificaterequests/R1"
                     PNil] |}).
Proof.
  split; reflexivity.
Qed.

(** An acknowledgment without request identifiers, then one with two. *)
Lemma C10_first_request_id_witness :
  fst (RequestCertificate connector request0 ""
         (start [reply 200 "200 OK" (Some "Z1|PI|PU");
                 reply 201 "201 Created" None] false))
  = (request0, Panics "runtime error: index out of range [0] with length 0")
  /\ fst (RenewCertificate connector (renewByDN "R1")
            (start [issued; reply 200 "200 OK" (Some "M1|R1");
                    reply 201 "201 Created" (Some "R9,R10")] false))
     = Returns (Ok "R9").
Proof.
  assert (Horigin : 0 <> 1) by discriminate.
  assert (H2 : "M1" <> "") by discriminate.
  assert (H3 : "Z1" <> "") by discriminate.
  split.
  - destruct (C10_first_request_id connector {| CertificateRequests := [] |}
                eq_refl) as [H _].
    pose proof (H request0 ""
                  (start [reply 200 "200 OK" (Some "Z1|PI|PU");
                          reply 201 "201 Created" None] false)
                  _ _ Horigin eq_refl eq_refl eq_refl) as H'.
    rewrite H'. reflexivity.
  - destruct (C10_first_request_id connector
                {| CertificateRequests :=
                     [ {| crd_ID := "R9" |}; {| crd_ID := "R10" |} ] |}
                eq_refl) as [_ H].
    pose proof (H (renewByDN "R1")
                  (start [issued; reply 200 "200 OK" (Some "M1|R1");
                          reply 201 "201 Created" (Some "R9,R10")] false)
                  _ _ _ "R1" _ _ eq_refl eq_refl H2 H3 eq_refl eq_refl
                  eq_refl eq_refl) as H'.
    rewrite H'. reflexivity.
Defined.

End Runs.

(** * More runs on the scripted platform *)

Section MoreRuns.
Import Scripted.
Import ScriptedAccounts.
#[local] Existing Instance Scripted.types.
#[local] Existing Instance Scripted.platform.
#[local] Existing Instance ScriptedAccounts.package.

(** A pending request polled without timeout, five passes allowed. *)
Lemma zero_timeout_never_waits_witness :
  RetrieveCertificate 5 connector request0 (start [pending; issued; pem] false)
  = RetrieveCertificate 1 connector request0
      (start [pending; issued; pem] false).
Proof.
  exact (proj1 (zero_timeout_never_waits 4 connector request0
                  (start [pending; issued; pem] false) eq_refl)).
Defined.

(** A request that stays pending, with a timeout of ten seconds: seven
    passes are enough. *)
Lemma RetrieveCertificate_returns_witness :
  snd (fst (RetrieveCertificate 7 connector
              (withTimeout request0 (10 * second))
              (start [pending; pending; pending; pending; pending; pending;
                      pending; pending] false)))
  <> None.
Proof.
  assert (Htick : TickingClock clock steady).
  { split.
    - intros c method url data auth [c1 l1 r1 x1] Hinv.
      unfold steady in *. cbn in *. unfold transport. cbn.
      destruct r1; cbn; split; try assumption; lia.
    - intros [c1 l1 r1 x1] Hinv. unfold steady in *. cbn in *.
      repeat split; try assumption; lia.
    - intros d [c1 l1 r1 x1] Hinv. unfold steady in *. cbn in *.
      split; [assumption|lia]. }
  apply (RetrieveCertificate_returns (FT := types) (P := platform)
           clock steady 7 connector
           (withTimeout request0 (10 * second)) _ Htick).
  - unfold steady. cbn. discriminate.
  - vm_compute. repeat constructor.
Defined.

(** A renewal with a new CSR. *)
Lemma renewal_request_is_well_formed_witness :
  "POST" = "POST"
  /\ "https://api.venafi.cloud/v1/certificaterequests"
     = getURL connector urlResourceCertificateRequests
  /\ "M1" <> "" /\ "Z1" <> ""
  /\ false = String.eqb "-----BEGIN CERTIFICATE REQUEST-----" "".
Proof.
  exact (renewal_request_is_well_formed connector
           (renewWithCSR "R1" "-----BEGIN CERTIFICATE REQUEST-----")
           (start [issued; reply 200 "200 OK" (Some "M1|R1");
                   reply 201 "201 Created" (Some "R9")] false)
           [EvRequest "GET"
              "https://api.venafi.cloud/v1/certificaterequests/R1" PNil;
            EvRequest "GET"
              "https://api.venafi.cloud/v1/managedcertificates/M1" PNil;
            EvRequest "POST"
              "https://api.venafi.cloud/v1/certificaterequests"
              (PCertificateRequest
                 {| cr_ZoneID := "Z1";
                    cr_CSR := "-----BEGIN CERTIFICATE REQUEST-----";
                    cr_ExistingManagedCertificateId := "M1";
                    cr_ReuseCSR := false |})]
           "POST" "https://api.venafi.cloud/v1/certificaterequests"
           {| cr_ZoneID := "Z1";
              cr_CSR := "-----BEGIN CERTIFICATE REQUEST-----";
              cr_ExistingManagedCertificateId := "M1";
              cr_ReuseCSR := false |}
           eq_refl (or_intror (or_intror (or_introl eq_refl)))).
Defined.

(** A renewal request with both a [CertificateDN] and a thumbprint. *)
Lemma thumbprint_takes_precedence_witness :
  RenewCertificate connector (renewBoth "R7" "ab:cd") (start staleScript false)
  = RenewCertificate connector (renewByThumbprint "ab:cd")
      (start staleScript false).
Proof.
  assert (Hfp : "ab:cd" <> "") by discriminate.
  exact (thumbprint_takes_precedence connector (renewBoth "R7" "ab:cd")
           (start staleScript false) Hfp).
Defined.

(** A renewal without target, and one whose request has no managed
    certificate yet. *)
Lemma renewal_lookup_guards_witness :
  renewalRequestId connector (renewByDN "") (start [] false)
  = (Err (errorString
       "failed to create renewal request: CertificateDN or Thumbprint required"),
     start [] false)
  /\ fst (RenewCertificate connector (renewByDN "R1")
            (start [reply 200 "200 OK" (Some "REQUESTED|Z1|")] false))
     = Returns (Err (errorString
         "failed to submit renewal request for certificate: ManagedCertificateId is empty, certificate status is REQUESTED")).
Proof.
  split.
  - exact (proj1 (renewal_lookup_guards connector (renewByDN "")
                    (start [] false) (start [] false) (start [] false) ""
                    {| cs_Status := ""; cs_ZoneId := "";
                       cs_ManagedCertificateId := "" |}) eq_refl).
  - pose proof (proj2 (renewal_lookup_guards connector (renewByDN "R1")
                         (start [reply 200 "200 OK" (Some "REQUESTED|Z1|")]
                            false) _ _ "R1" _)
                  eq_refl eq_refl (or_introl eq_refl)) as [H _].
    rewrite H. reflexivity.
Defined.

(** A connector that has not authenticated renews an issued, current
    certificate. *)
Lemma not_authenticated_obtains_nothing_witness :
  exists e,
    fst (RenewCertificate anonymous (renewByDN "R1")
           (start [issued; reply 200 "200 OK" (Some "M1|R1");
                   reply 201 "201 Created" (Some "R9")] false))
    = Returns (Err e).
Proof.
  exact (proj1 (proj2 (not_authenticated_obtains_nothing 1 anonymous request0
                         (renewByDN "R1")
                         (start [issued; reply 200 "200 OK" (Some "M1|R1");
                                 reply 201 "201 Created" (Some "R9")] false)
                         eq_refl))).
Defined.

(** The status arrives with 200 although the transport reports an error. *)
Lemma getCertificateStatus_result_witness :
  fst (getCertificateStatus connector "R1" (start [issuedWithError] false))
  = Ok {| cs_Status := "ISSUED"; cs_ZoneId := "Z1";
          cs_ManagedCertificateId := "M1" |}.
Proof.
  apply (proj1 (getCertificateStatus_result connector "R1"
                  (start [issuedWithError] false))).
  split; reflexivity.
Defined.

(** The service cannot be reached. *)
Lemma transport_error_ends_the_call_witness :
  fst (RequestCertificate connector request0 "" (start [] false))
  = (request0, Returns (Err (errorForeign "*url.Error" "connection refused")))
  /\ log (snd (RequestCertificate connector request0 "" (start [] false)))
     = [EvRequest "GET" "https://api.venafi.cloud/v1/zones/tag/Default" PNil].
Proof.
  assert (Horigin : 0 <> 1) by discriminate.
  exact (proj1 (transport_error_ends_the_call 0 connector request0 "" 0
                  (start [] false) (start [] false)
                  (errorForeign "*url.Error" "connection refused")
                  {| cs_Status := ""; cs_ZoneId := "";
                     cs_ManagedCertificateId := "" |} eq_refl)
           Horigin eq_refl).
Defined.

(** A search with two hits of the same request. *)
Lemma fingerprint_resolution_witness :
  fst (renewalRequestId connector (renewByThumbprint "ab:cd")
         (start [reply 200 "200 OK" (Some "R1,R1")] false))
  = Ok "R1"
  /\ fst (resolvePickupID connector (byThumbprint "ab:cd")
            (start [reply 200 "200 OK" (Some "R1,R1")] false))
     = Ok (set_PickupID (byThumbprint "ab:cd") "R1").
Proof.
  assert (Hfp : "ab:cd" <> "") by discriminate.
  assert (Hne : sameRequestTwice <> []) by discriminate.
  assert (Hall : forall a, In a (requestIds sameRequestTwice) -> a = "R1").
  { intros a [<-|[<-|[]]]; reflexivity. }
  pose proof (fingerprint_resolution connector (byThumbprint "ab:cd")
                (renewByThumbprint "ab:cd")
                (start [reply 200 "200 OK" (Some "R1,R1")] false) _
                {| Certificates := sameRequestTwice |}
                eq_refl Hfp eq_refl eq_refl) as [_ H].
  destruct (H "R1" Hne Hall) as [H1 H2].
  rewrite H1, H2. split; reflexivity.
Defined.

(** An identity fragment and a use fragment, in both orders. *)
Lemma mergePolicy_order_witness :
  fold_left mergePolicy [identityPolicy; usePolicy] new_certificatePolicy
  = fold_left mergePolicy [usePolicy; identityPolicy] new_certificatePolicy.
Proof.
  exact (proj1 (mergePolicy_order new_certificatePolicy identityPolicy
                  usePolicy) eq_refl eq_refl).
Defined.

End MoreRuns.
